(** * JFR checkpoint type serializers (jfrType.cpp)

    A shallow embedding of
    [src/share/vm/jfr/recorder/checkpoint/types/jfrType.cpp]: the thread
    closure that enumerates live threads into a count-prefixed pool, the
    enum-to-name table serializers, and the single-thread serializer.

    The checkpoint writer, the thread accessors and the enumerations live in
    other files of the VM; they appear here as a model of the writer's
    protocol and as the fields of the class [HotSpot]. *)

From Stdlib Require Import ZArith String Lia.
From stdpp Require Import base list.

Local Open Scope Z_scope.
Local Open Scope nat_scope.

(** ** Scalars *)

(** [u4] and [traceid] (a [u8]) are carried as [Z]; the only arithmetic the
    file does on them is [++_count] on a [u4], whose wrap-around is
    [u4_incr]. *)
Definition u4 := Z.
Definition traceid := Z.
Definition u4_modulus : Z := 2 ^ 32.
Definition u4_incr (n : u4) : u4 := ((n + 1) mod u4_modulus)%Z.

(** A [const char*]: [None] is the NULL pointer. *)
Definition cstring := option string.

Definition is_NULL (s : cstring) : bool :=
  match s with
  | None => true
  | Some _ => false
  end.

(** A thread object, named by its address. *)
Definition Thread := nat.

(** ** The checkpoint writer *)

(** What calls outside this file put into the writer. *)
Inductive foreign :=
| ThreadGroup_all                      (* JfrThreadGroup::serialize(writer) *)
| ThreadGroup_chain (group : traceid)  (* JfrThreadGroup::serialize(&writer, id) *)
| ThreadState_all.                     (* JfrThreadState::serialize(writer) *)

(** One cell of the writer's buffer per call that appends to it. *)
Inductive slot :=
| SReserved (size : nat)     (* reserve(size): allocated, content undefined *)
| SCount (n : u4)            (* write_count *)
| SKey (k : traceid)         (* write_key *)
| SString (s : cstring)      (* write of a C string, NULL included *)
| STraceId (v : traceid)     (* write(traceid) *)
| SForeign (f : foreign).    (* written by code outside this file *)

(** Modelled from the spec: JfrCheckpointWriter (jfrCheckpointWriter.hpp is
    not part of the sources).  The buffer is split at the cursor: [written]
    is what lies before it, [stale] what a rewind left behind it.  Offsets
    count slots, the byte encoding of a slot not being fixed here. *)
Record JfrCheckpointWriter := mkWriter {
  written : list slot;
  stale : list slot
}.

Definition buffer (w : JfrCheckpointWriter) : list slot := written w ++ stale w.
Definition cursor (w : JfrCheckpointWriter) : nat := length (written w).

(** Modelled from the spec: JfrCheckpointContext, a snapshot of the cursor. *)
Definition JfrCheckpointContext := nat.

(** Modelled from the spec: JfrCheckpointWriter::context. *)
Definition context (w : JfrCheckpointWriter) : JfrCheckpointContext := cursor w.

(** Modelled from the spec: JfrCheckpointWriter::set_context, a rewind of the
    cursor that truncates nothing. *)
Definition set_context (ctx : JfrCheckpointContext) (w : JfrCheckpointWriter)
  : JfrCheckpointWriter :=
  {| written := take ctx (written w);
     stale := drop ctx (written w) ++ stale w |}.

(** Modelled from the spec: the writer's append at the cursor, shared by
    every write and by reserve. *)
Definition append (s : slot) (w : JfrCheckpointWriter) : JfrCheckpointWriter :=
  {| written := written w ++ [s]; stale := drop 1 (stale w) |}.

(** Modelled from the spec: JfrCheckpointWriter::reserve, which returns the
    offset of the space it allocates. *)
Definition reserve (size : nat) (w : JfrCheckpointWriter)
  : nat * JfrCheckpointWriter :=
  (cursor w, append (SReserved size) w).

(** Modelled from the spec: JfrCheckpointWriter::write_count(u4). *)
Definition write_count (n : u4) : JfrCheckpointWriter -> JfrCheckpointWriter :=
  append (SCount n).

(** Modelled from the spec: JfrCheckpointWriter::write_count(u4, int64_t),
    the in-place patch; the cursor stays. *)
Definition write_count_at (n : u4) (position : nat) (w : JfrCheckpointWriter)
  : JfrCheckpointWriter :=
  {| written := <[position := SCount n]> (written w); stale := stale w |}.

(** Modelled from the spec: JfrCheckpointWriter::write_key. *)
Definition write_key (k : traceid) : JfrCheckpointWriter -> JfrCheckpointWriter :=
  append (SKey k).

(** Modelled from the spec: JfrCheckpointWriter::write for a C string. *)
Definition write_string (s : cstring) : JfrCheckpointWriter -> JfrCheckpointWriter :=
  append (SString s).

(** Modelled from the spec: JfrCheckpointWriter::write(traceid). *)
Definition write_traceid (v : traceid) : JfrCheckpointWriter -> JfrCheckpointWriter :=
  append (STraceId v).

(** Modelled from the spec: JfrThreadGroup::serialize and
    JfrThreadState::serialize (jfrThreadGroup.cpp and jfrThreadState.cpp are
    not part of the sources); what such a call writes is kept as one opaque
    slot at the cursor. *)
Definition write_foreign (f : foreign) : JfrCheckpointWriter -> JfrCheckpointWriter :=
  append (SForeign f).

(** What a serializer added: the slots past the cursor it started from. *)
Definition emitted (before after : JfrCheckpointWriter) : list slot :=
  drop (cursor before) (written after).

(** The keys of a run of slots, one per entry. *)
Definition keys (l : list slot) : list traceid :=
  omap (fun s => match s with SKey k => Some k | _ => None end) l.

(** ** Outcomes *)

(** A call returns, or the VM stops in [assert] or [ShouldNotReachHere];
    either way the state reached is kept. *)
Inductive outcome (St : Type) :=
| Done (s : St)
| Fatal (s : St).
Arguments Done {St} s.
Arguments Fatal {St} s.

(** [for (u4 i = first; i < first + todo; ++i) body(i)] *)
Fixpoint for_range {St : Type} (first todo : nat) (body : nat -> St -> outcome St)
  (s : St) : outcome St :=
  match todo with
  | O => Done s
  | S todo' =>
      match body first s with
      | Done s' => for_range (S first) todo' body s'
      | Fatal s' => Fatal s'
      end
  end.

(** ** The rest of the VM *)

(** The build macros, the thread accessors and the enumerations that
    jfrType.cpp takes from other files.  An enumerator is an [int] that is
    not negative, so it converts to [u4] unchanged and is kept as a [nat];
    a name lookup returns a [const char*]. *)
Class HotSpot := {
  (* build macros *)
  ASSERT : bool;
  INCLUDE_ALL_GCS : bool;
  COMPILER2 : bool;
  (* threads *)
  JfrThreadId_jfr_id : Thread -> traceid;
  JfrThreadId_os_id : Thread -> traceid;
  JfrThreadId_id : Thread -> traceid;
  JfrThreadName_name : Thread -> cstring;
  is_Java_thread : Thread -> bool;
  JfrThreadGroup_thread_group_id : Thread -> Thread -> traceid;
  (* Flag::Flags *)
  Flag_DEFAULT : nat;
  Flag_COMMAND_LINE : nat;
  Flag_ENVIRON_VAR : nat;
  Flag_CONFIG_FILE : nat;
  Flag_MANAGEMENT : nat;
  Flag_ERGONOMIC : nat;
  Flag_ATTACH_ON_DEMAND : nat;
  Flag_INTERNAL : nat;
  Flag_LAST_VALUE_ORIGIN : nat;
  (* ReferenceType *)
  REF_NONE : nat;
  REF_OTHER : nat;
  REF_SOFT : nat;
  REF_WEAK : nat;
  REF_FINAL : nat;
  REF_PHANTOM : nat;
  (* enumerations with a name lookup of their own *)
  ObjectSynchronizer_inflate_cause_nof : nat;
  ObjectSynchronizer_inflate_cause_name : nat -> cstring;
  GCCause__last_gc_cause : nat;
  GCCause_to_string : nat -> cstring;
  GCNameEndSentinel : nat;
  GCNameHelper_to_string : nat -> cstring;
  GCWhen_GCWhenEndSentinel : nat;
  GCWhen_to_string : nat -> cstring;
  G1HeapRegionTraceType_G1HeapRegionTypeEndSentinel : nat;
  G1HeapRegionTraceType_to_string : nat -> cstring;
  MetaspaceGCThresholdUpdater_Last : nat;
  MetaspaceGCThresholdUpdater_to_string : nat -> cstring;
  Metaspace_MetadataTypeCount : nat;
  Metaspace_metadata_type_name : nat -> cstring;
  MetaspaceObj__number_of_types : nat;
  MetaspaceObj_type_name : nat -> cstring;
  G1YCTypeEndSentinel : nat;
  G1YCTypeHelper_to_string : nat -> cstring;
  Universe_HeapBasedNarrowOop : nat;
  Universe_narrow_oop_mode_to_string : nat -> cstring;
  PHASE_NUM_TYPES : nat;
  CompilerPhaseTypeHelper_to_string : nat -> cstring;
  CodeBlobType_All : nat;
  CodeBlobType_NumTypes : nat;
  VM_Operation_VMOp_Terminating : nat;
  VM_Operation_name : nat -> cstring
}.

Local Open Scope string_scope.
Local Open Scope list_scope.
Local Open Scope nat_scope.

Section Serializers.
Context {vm : HotSpot}.

(** ** Enum-to-name tables *)

(** The result of a name lookup: [None] where the source runs into
    [ShouldNotReachHere()]. *)
Definition lookup := option cstring.

Definition flag_value_origin_to_string (origin : nat) : lookup :=
  if origin =? Flag_DEFAULT then Some (Some "Default")
  else if origin =? Flag_COMMAND_LINE then Some (Some "Command line")
  else if origin =? Flag_ENVIRON_VAR then Some (Some "Environment variable")
  else if origin =? Flag_CONFIG_FILE then Some (Some "Config file")
  else if origin =? Flag_MANAGEMENT then Some (Some "Management")
  else if origin =? Flag_ERGONOMIC then Some (Some "Ergonomic")
  else if origin =? Flag_ATTACH_ON_DEMAND then Some (Some "Attach on demand")
  else if origin =? Flag_INTERNAL then Some (Some "Internal")
  else None.

Definition reference_type_to_string (rt : nat) : lookup :=
  if rt =? REF_NONE then Some (Some "None reference")
  else if rt =? REF_OTHER then Some (Some "Other reference")
  else if rt =? REF_SOFT then Some (Some "Soft reference")
  else if rt =? REF_WEAK then Some (Some "Weak reference")
  else if rt =? REF_FINAL then Some (Some "Final reference")
  else if rt =? REF_PHANTOM then Some (Some "Phantom reference")
  else None.

(** The body the table serializers share:
    [writer.write_key(i); writer.write(name(i));] *)
Definition write_entry (name : nat -> lookup) (i : nat)
  (writer : JfrCheckpointWriter) : outcome JfrCheckpointWriter :=
  let writer := write_key (Z.of_nat i) writer in
  match name i with
  | Some s => Done (write_string s writer)
  | None => Fatal writer
  end.

Definition FlagValueOriginConstant_serialize (writer : JfrCheckpointWriter)
  : outcome JfrCheckpointWriter :=
  let nof_entries := Flag_LAST_VALUE_ORIGIN + 1 in
  let writer := write_count (Z.of_nat nof_entries) writer in
  for_range 0 nof_entries (write_entry flag_value_origin_to_string) writer.

Definition MonitorInflateCauseConstant_serialize (writer : JfrCheckpointWriter)
  : outcome JfrCheckpointWriter :=
  let nof_entries := ObjectSynchronizer_inflate_cause_nof in
  let writer := write_count (Z.of_nat nof_entries) writer in
  for_range 0 nof_entries
    (write_entry (fun i => Some (ObjectSynchronizer_inflate_cause_name i))) writer.

Definition GCCauseConstant_serialize (writer : JfrCheckpointWriter)
  : outcome JfrCheckpointWriter :=
  let nof_entries := GCCause__last_gc_cause in
  let writer := write_count (Z.of_nat nof_entries) writer in
  for_range 0 nof_entries (write_entry (fun i => Some (GCCause_to_string i))) writer.

Definition GCNameConstant_serialize (writer : JfrCheckpointWriter)
  : outcome JfrCheckpointWriter :=
  let nof_entries := GCNameEndSentinel in
  let writer := write_count (Z.of_nat nof_entries) writer in
  for_range 0 nof_entries (write_entry (fun i => Some (GCNameHelper_to_string i))) writer.

Definition GCWhenConstant_serialize (writer : JfrCheckpointWriter)
  : outcome JfrCheckpointWriter :=
  let nof_entries := GCWhen_GCWhenEndSentinel in
  let writer := write_count (Z.of_nat nof_entries) writer in
  for_range 0 nof_entries (write_entry (fun i => Some (GCWhen_to_string i))) writer.

Definition G1HeapRegionTypeConstant_serialize (writer : JfrCheckpointWriter)
  : outcome JfrCheckpointWriter :=
  let nof_entries := G1HeapRegionTraceType_G1HeapRegionTypeEndSentinel in
  let writer := write_count (Z.of_nat nof_entries) writer in
  for_range 0 nof_entries
    (write_entry (fun i => Some (G1HeapRegionTraceType_to_string i))) writer.

Definition GCThresholdUpdaterConstant_serialize (writer : JfrCheckpointWriter)
  : outcome JfrCheckpointWriter :=
  let nof_entries := MetaspaceGCThresholdUpdater_Last in
  let writer := write_count (Z.of_nat nof_entries) writer in
  for_range 0 nof_entries
    (write_entry (fun i => Some (MetaspaceGCThresholdUpdater_to_string i))) writer.

Definition MetadataTypeConstant_serialize (writer : JfrCheckpointWriter)
  : outcome JfrCheckpointWriter :=
  let nof_entries := Metaspace_MetadataTypeCount in
  let writer := write_count (Z.of_nat nof_entries) writer in
  for_range 0 nof_entries
    (write_entry (fun i => Some (Metaspace_metadata_type_name i))) writer.

Definition MetaspaceObjectTypeConstant_serialize (writer : JfrCheckpointWriter)
  : outcome JfrCheckpointWriter :=
  let nof_entries := MetaspaceObj__number_of_types in
  let writer := write_count (Z.of_nat nof_entries) writer in
  for_range 0 nof_entries (write_entry (fun i => Some (MetaspaceObj_type_name i))) writer.

Definition G1YCTypeConstant_serialize (writer : JfrCheckpointWriter)
  : outcome JfrCheckpointWriter :=
  if INCLUDE_ALL_GCS then
    let nof_entries := G1YCTypeEndSentinel in
    let writer := write_count (Z.of_nat nof_entries) writer in
    for_range 0 nof_entries
      (write_entry (fun i => Some (G1YCTypeHelper_to_string i))) writer
  else Done writer.

Definition ReferenceTypeConstant_serialize (writer : JfrCheckpointWriter)
  : outcome JfrCheckpointWriter :=
  let nof_entries := REF_PHANTOM + 1 in
  let writer := write_count (Z.of_nat nof_entries) writer in
  for_range 0 nof_entries (write_entry reference_type_to_string) writer.

Definition NarrowOopModeConstant_serialize (writer : JfrCheckpointWriter)
  : outcome JfrCheckpointWriter :=
  let nof_entries := Universe_HeapBasedNarrowOop + 1 in
  let writer := write_count (Z.of_nat nof_entries) writer in
  for_range 0 nof_entries
    (write_entry (fun i => Some (Universe_narrow_oop_mode_to_string i))) writer.

Definition CompilerPhaseTypeConstant_serialize (writer : JfrCheckpointWriter)
  : outcome JfrCheckpointWriter :=
  if COMPILER2 then
    let nof_entries := PHASE_NUM_TYPES in
    let writer := write_count (Z.of_nat nof_entries) writer in
    for_range 0 nof_entries
      (write_entry (fun i => Some (CompilerPhaseTypeHelper_to_string i))) writer
  else Done writer.

Definition CodeBlobTypeConstant_serialize (writer : JfrCheckpointWriter)
  : outcome JfrCheckpointWriter :=
  let nof_entries := CodeBlobType_NumTypes in
  let writer := write_count (Z.of_nat nof_entries) writer in
  let writer := write_key (Z.of_nat CodeBlobType_All) writer in
  Done (write_string (Some "CodeCache") writer).

Definition VMOperationTypeConstant_serialize (writer : JfrCheckpointWriter)
  : outcome JfrCheckpointWriter :=
  let nof_entries := VM_Operation_VMOp_Terminating in
  let writer := write_count (Z.of_nat nof_entries) writer in
  for_range 0 nof_entries (write_entry (fun i => Some (VM_Operation_name i))) writer.

(** Two serializers hand the writer to code outside this file. *)
Definition JfrThreadGroupConstant_serialize (writer : JfrCheckpointWriter)
  : outcome JfrCheckpointWriter :=
  Done (write_foreign ThreadGroup_all writer).

Definition ThreadStateConstant_serialize (writer : JfrCheckpointWriter)
  : outcome JfrCheckpointWriter :=
  Done (write_foreign ThreadState_all writer).


(** ** The calling thread and the thread registry *)

(** What the calling thread does around the enumeration, in order. *)
Inductive event :=
| Lock_Threads_lock                         (* MutexLockerEx ml(Threads_lock) *)
| Unlock_Threads_lock                       (* its destructor *)
| Set_skip_rank_order_check (skip : bool)
| Do_thread (t : Thread).

(** [Thread::current()], its rank-check flag, and what it did so far (oldest
    event first). *)
Record Caller := mkCaller {
  current : Thread;
  skip_rank_order_check : bool;
  history : list event
}.

(** The caller does [e]; used for [MutexLockerEx ml(Threads_lock)], for its
    destructor and for the calls of [do_thread]. *)
Definition record (e : event) (c : Caller) : Caller :=
  {| current := current c;
     skip_rank_order_check := skip_rank_order_check c;
     history := history c ++ [e] |}.

(** Modelled from the spec: Thread::set_skip_rank_order_check (thread.hpp is
    not part of the sources), the flag that suspends the lock-ordering check
    of the thread it is called on. *)
Definition set_skip_rank_order_check (skip : bool) (c : Caller) : Caller :=
  {| current := current c;
     skip_rank_order_check := skip;
     history := history c ++ [Set_skip_rank_order_check skip] |}.

(** What JfrJavaThreadIterator and JfrNonJavaThreadIterator yield, in their
    order. *)
Record Registry := mkRegistry {
  javathreads : list Thread;
  nonjavathreads : list Thread
}.

Definition all_threads (reg : Registry) : list Thread :=
  javathreads reg ++ nonjavathreads reg.

(** ** JfrCheckpointThreadClosure *)

(** [_writer] is a reference; the closure is the only one to use the writer
    while it lives, so it carries the writer itself. *)
Record JfrCheckpointThreadClosure := mkClosure {
  _writer : JfrCheckpointWriter;
  _ctx : JfrCheckpointContext;
  _count_position : nat;
  _curthread : Thread;
  _count : u4
}.

(** The constructor; members are initialised in declaration order. *)
Definition JfrCheckpointThreadClosure_new (writer : JfrCheckpointWriter)
  (current : Thread) : JfrCheckpointThreadClosure :=
  let ctx := context writer in
  let '(position, writer) := reserve 4 writer in
  {| _writer := writer; _ctx := ctx; _count_position := position;
     _curthread := current; _count := 0%Z |}.

(** The destructor. *)
Definition JfrCheckpointThreadClosure_delete (tc : JfrCheckpointThreadClosure)
  : JfrCheckpointWriter :=
  if (_count tc =? 0)%Z then
    (* restore *)
    set_context (_ctx tc) (_writer tc)
  else write_count_at (_count tc) (_count_position tc) (_writer tc).

Definition with_writer (tc : JfrCheckpointThreadClosure)
  (writer : JfrCheckpointWriter) : JfrCheckpointThreadClosure :=
  {| _writer := writer; _ctx := _ctx tc; _count_position := _count_position tc;
     _curthread := _curthread tc; _count := _count tc |}.

Definition with_count (tc : JfrCheckpointThreadClosure) (count : u4)
  : JfrCheckpointThreadClosure :=
  {| _writer := _writer tc; _ctx := _ctx tc; _count_position := _count_position tc;
     _curthread := _curthread tc; _count := count |}.

(** A [Thread] is a thread object, never NULL, so [assert(t != NULL)] has
    nothing to check; [assert(name != NULL)] stops a debug build. *)
Definition do_thread (tc : JfrCheckpointThreadClosure) (t : Thread)
  : outcome JfrCheckpointThreadClosure :=
  let tc := with_count tc (u4_incr (_count tc)) in
  let writer := write_key (JfrThreadId_jfr_id t) (_writer tc) in
  let name := JfrThreadName_name t in
  if ASSERT && is_NULL name then Fatal (with_writer tc writer)
  else
    let writer := write_string name writer in
    let writer := write_traceid (JfrThreadId_os_id t) writer in
    if is_Java_thread t then
      let writer := write_string name writer in
      let writer := write_traceid (JfrThreadId_id t) writer in
      let writer :=
        write_traceid (JfrThreadGroup_thread_group_id t (_curthread tc)) writer in
      Done (with_writer tc writer)
    else
      let writer := write_string None writer in   (* java name *)
      let writer := write_traceid 0%Z writer in   (* java thread id *)
      let writer := write_traceid 0%Z writer in   (* java thread group *)
      Done (with_writer tc writer).

(** [while (it.has_next()) { tc.do_thread(it.next()); }] *)
Fixpoint do_threads (ts : list Thread) (tc : JfrCheckpointThreadClosure)
  (c : Caller) : outcome (JfrCheckpointThreadClosure * Caller) :=
  match ts with
  | [] => Done (tc, c)
  | t :: rest =>
      match do_thread tc t with
      | Done tc' => do_threads rest tc' (record (Do_thread t) c)
      | Fatal tc' => Fatal (tc', record (Do_thread t) c)
      end
  end.

(** ** JfrThreadConstantSet *)

Definition state : Type := JfrCheckpointWriter * Caller.

Definition stopped (s : JfrCheckpointThreadClosure * Caller) : outcome state :=
  Fatal (_writer (fst s), snd s).

Definition JfrThreadConstantSet_serialize (reg : Registry) (s : state)
  : outcome state :=
  let '(writer, c) := s in
  let tc := JfrCheckpointThreadClosure_new writer (current c) in
  let c := record Lock_Threads_lock c in
  let c := if ASSERT then set_skip_rank_order_check true c else c in
  match do_threads (javathreads reg) tc c with
  | Fatal s' => stopped s'
  | Done (tc, c) =>
      match do_threads (nonjavathreads reg) tc c with
      | Fatal s' => stopped s'
      | Done (tc, c) =>
          (* enable checking again *)
          let c := if ASSERT then set_skip_rank_order_check false c else c in
          (* locals die in reverse order: ml, then tc *)
          let c := record Unlock_Threads_lock c in
          Done (JfrCheckpointThreadClosure_delete tc, c)
      end
  end.

(** ** JfrThreadConstant *)

(** [_thread] is a thread object, so [assert(_thread != NULL)] has nothing to
    check; [assert(_thread == Thread::current())] stops a debug build.  The
    name is written as it comes, without an assertion. *)
Definition JfrThreadConstant_serialize (_thread : Thread) (current : Thread)
  (writer : JfrCheckpointWriter) : outcome JfrCheckpointWriter :=
  if ASSERT && negb (_thread =? current) then Fatal writer
  else
    let writer := write_count 1%Z writer in
    let writer := write_key (JfrThreadId_jfr_id _thread) writer in
    let name := JfrThreadName_name _thread in
    let writer := write_string name writer in
    let writer := write_traceid (JfrThreadId_os_id _thread) writer in
    if is_Java_thread _thread then
      let writer := write_string name writer in
      let writer := write_traceid (JfrThreadId_id _thread) writer in
      let jt := _thread in
      let thread_group_id := JfrThreadGroup_thread_group_id jt jt in
      let writer := write_traceid thread_group_id writer in
      Done (write_foreign (ThreadGroup_chain thread_group_id) writer)
    else
      let writer := write_string None writer in   (* java name *)
      let writer := write_traceid 0%Z writer in   (* java thread id *)
      let writer := write_traceid 0%Z writer in   (* java thread group *)
      Done writer.

(** ** The serializers of this file, behind one [serialize(writer)] *)

Inductive JfrSerializer :=
| JfrThreadConstantSet
| JfrThreadGroupConstant
| FlagValueOriginConstant
| MonitorInflateCauseConstant
| GCCauseConstant
| GCNameConstant
| GCWhenConstant
| G1HeapRegionTypeConstant
| GCThresholdUpdaterConstant
| MetadataTypeConstant
| MetaspaceObjectTypeConstant
| G1YCTypeConstant
| ReferenceTypeConstant
| NarrowOopModeConstant
| CompilerPhaseTypeConstant
| CodeBlobTypeConstant
| VMOperationTypeConstant
| ThreadStateConstant
| JfrThreadConstant (_thread : Thread).

(** A serializer that only needs the writer leaves the caller as it is. *)
Definition on_writer (f : JfrCheckpointWriter -> outcome JfrCheckpointWriter)
  (s : state) : outcome state :=
  match f (fst s) with
  | Done w => Done (w, snd s)
  | Fatal w => Fatal (w, snd s)
  end.

Definition serialize (k : JfrSerializer) (reg : Registry) (s : state)
  : outcome state :=
  match k with
  | JfrThreadConstantSet => JfrThreadConstantSet_serialize reg s
  | JfrThreadGroupConstant => on_writer JfrThreadGroupConstant_serialize s
  | FlagValueOriginConstant => on_writer FlagValueOriginConstant_serialize s
  | MonitorInflateCauseConstant => on_writer MonitorInflateCauseConstant_serialize s
  | GCCauseConstant => on_writer GCCauseConstant_serialize s
  | GCNameConstant => on_writer GCNameConstant_serialize s
  | GCWhenConstant => on_writer GCWhenConstant_serialize s
  | G1HeapRegionTypeConstant => on_writer G1HeapRegionTypeConstant_serialize s
  | GCThresholdUpdaterConstant => on_writer GCThresholdUpdaterConstant_serialize s
  | MetadataTypeConstant => on_writer MetadataTypeConstant_serialize s
  | MetaspaceObjectTypeConstant => on_writer MetaspaceObjectTypeConstant_serialize s
  | G1YCTypeConstant => on_writer G1YCTypeConstant_serialize s
  | ReferenceTypeConstant => on_writer ReferenceTypeConstant_serialize s
  | NarrowOopModeConstant => on_writer NarrowOopModeConstant_serialize s
  | CompilerPhaseTypeConstant => on_writer CompilerPhaseTypeConstant_serialize s
  | CodeBlobTypeConstant => on_writer CodeBlobTypeConstant_serialize s
  | VMOperationTypeConstant => on_writer VMOperationTypeConstant_serialize s
  | ThreadStateConstant => on_writer ThreadStateConstant_serialize s
  | JfrThreadConstant _thread =>
      on_writer (JfrThreadConstant_serialize _thread (current (snd s))) s
  end.

(** ** Vocabulary of the properties *)

(** The entries of an ordinal table: [(i, name i)] for [i] from [first],
    [n] of them, in this order. *)
Definition ordinal_entries (name : nat -> cstring) (first n : nat) : list slot :=
  flat_map (fun i => [SKey (Z.of_nat i); SString (name i)]) (seq first n).

(** A pool of [n] ordinal entries added behind what was there. *)
Definition ordinal_pool (n : nat) (before after : JfrCheckpointWriter) : Prop :=
  exists name : nat -> cstring,
    written after =
    written before ++ SCount (Z.of_nat n) :: ordinal_entries name 0 n.

(** The count at the head of a pool is the number of its entries; nothing
    emitted is no pool. *)
Definition count_matches_entries (pool : list slot) : Prop :=
  match pool with
  | [] => True
  | SCount n :: entries => n = Z.of_nat (length (keys entries))
  | _ => False
  end.

(** The name a lookup gives, NULL where it gives none. *)
Definition name_of (g : nat -> lookup) (i : nat) : cstring :=
  match g i with
  | Some s => s
  | None => None
  end.

(** The enumeration a table serializer reads, if it is one. *)
Definition cardinality (k : JfrSerializer) : option nat :=
  match k with
  | FlagValueOriginConstant => Some (Flag_LAST_VALUE_ORIGIN + 1)
  | MonitorInflateCauseConstant => Some ObjectSynchronizer_inflate_cause_nof
  | GCCauseConstant => Some GCCause__last_gc_cause
  | GCNameConstant => Some GCNameEndSentinel
  | GCWhenConstant => Some GCWhen_GCWhenEndSentinel
  | G1HeapRegionTypeConstant =>
      Some G1HeapRegionTraceType_G1HeapRegionTypeEndSentinel
  | GCThresholdUpdaterConstant => Some MetaspaceGCThresholdUpdater_Last
  | MetadataTypeConstant => Some Metaspace_MetadataTypeCount
  | MetaspaceObjectTypeConstant => Some MetaspaceObj__number_of_types
  | G1YCTypeConstant => Some G1YCTypeEndSentinel
  | ReferenceTypeConstant => Some (REF_PHANTOM + 1)
  | NarrowOopModeConstant => Some (Universe_HeapBasedNarrowOop + 1)
  | CompilerPhaseTypeConstant => Some PHASE_NUM_TYPES
  | CodeBlobTypeConstant => Some CodeBlobType_NumTypes
  | VMOperationTypeConstant => Some VM_Operation_VMOp_Terminating
  | JfrThreadConstantSet | JfrThreadGroupConstant | ThreadStateConstant
  | JfrThreadConstant _ => None
  end.

(** The name lookup a table serializer loops over. *)
Definition table_lookup (k : JfrSerializer) (i : nat) : lookup :=
  match k with
  | FlagValueOriginConstant => flag_value_origin_to_string i
  | MonitorInflateCauseConstant => Some (ObjectSynchronizer_inflate_cause_name i)
  | GCCauseConstant => Some (GCCause_to_string i)
  | GCNameConstant => Some (GCNameHelper_to_string i)
  | GCWhenConstant => Some (GCWhen_to_string i)
  | G1HeapRegionTypeConstant => Some (G1HeapRegionTraceType_to_string i)
  | GCThresholdUpdaterConstant => Some (MetaspaceGCThresholdUpdater_to_string i)
  | MetadataTypeConstant => Some (Metaspace_metadata_type_name i)
  | MetaspaceObjectTypeConstant => Some (MetaspaceObj_type_name i)
  | G1YCTypeConstant => Some (G1YCTypeHelper_to_string i)
  | ReferenceTypeConstant => reference_type_to_string i
  | NarrowOopModeConstant => Some (Universe_narrow_oop_mode_to_string i)
  | CompilerPhaseTypeConstant => Some (CompilerPhaseTypeHelper_to_string i)
  | VMOperationTypeConstant => Some (VM_Operation_name i)
  | _ => None
  end.

(** The build macro a serializer's body sits under, if any. *)
Definition capability (k : JfrSerializer) : option bool :=
  match k with
  | G1YCTypeConstant => Some INCLUDE_ALL_GCS
  | CompilerPhaseTypeConstant => Some COMPILER2
  | _ => None
  end.

(** What section 4.3 says of a table serializer: a pool of as many ordinal
    entries as the enumeration has values. *)
Definition ordinal_table_claim (k : JfrSerializer) (reg : Registry) (s : state)
  : Prop :=
  forall n, cardinality k = Some n ->
    exists s', serialize k reg s = Done s' /\ ordinal_pool n (fst s) (fst s').

(** [_count] after one [++_count] per thread of [ts]. *)
Definition tally (ts : list Thread) (count : u4) : u4 :=
  fold_left (fun n _ => u4_incr n) ts count.

(** The thread names cannot stop a debug build. *)
Definition names_pass_assert (ts : list Thread) : Prop :=
  ASSERT = true -> Forall (fun t => JfrThreadName_name t <> None) ts.

(** The tally of threads fits the [u4] that counts them. *)
Definition fits_u4 (ts : list Thread) : Prop :=
  (Z.of_nat (length ts) < u4_modulus)%Z.

(** Under these conditions a call of [serialize] does not stop the VM and,
    for the thread set, does not overflow its counter. *)
Definition runs (k : JfrSerializer) (reg : Registry) (s : state) : Prop :=
  match k with
  | JfrThreadConstantSet =>
      names_pass_assert (all_threads reg) /\ fits_u4 (all_threads reg)
  | FlagValueOriginConstant =>
      forall i, i < Flag_LAST_VALUE_ORIGIN + 1 ->
                flag_value_origin_to_string i <> None
  | ReferenceTypeConstant =>
      forall i, i < REF_PHANTOM + 1 -> reference_type_to_string i <> None
  | JfrThreadConstant _thread => _thread = current (snd s)
  | _ => True
  end.

(** The record [do_thread] writes for [t] when the closure was made by
    [curthread]. *)
Definition thread_record (curthread t : Thread) : list slot :=
  [SKey (JfrThreadId_jfr_id t); SString (JfrThreadName_name t);
   STraceId (JfrThreadId_os_id t)] ++
  (if is_Java_thread t then
     [SString (JfrThreadName_name t); STraceId (JfrThreadId_id t);
      STraceId (JfrThreadGroup_thread_group_id t curthread)]
   else [SString None; STraceId 0%Z; STraceId 0%Z]).

(** A pool of thread records as the closure leaves it: nothing at all when
    there is no record. *)
Definition thread_pool (records : list (list slot)) : list slot :=
  match records with
  | [] => []
  | _ => SCount (Z.of_nat (length records)) :: concat records
  end.

(** The events of one enumeration over [ts]. *)
Definition enumeration_events (ts : list Thread) : list event :=
  [Lock_Threads_lock] ++
  (if ASSERT then [Set_skip_rank_order_check true] else []) ++
  map Do_thread ts ++
  (if ASSERT then [Set_skip_rank_order_check false] else []) ++
  [Unlock_Threads_lock].

End Serializers.

(** The shape of a slot, its content apart. *)
Inductive kind := KReserved | KCount | KKey | KString | KTraceId | KForeign.

Definition kind_of (s : slot) : kind :=
  match s with
  | SReserved _ => KReserved
  | SCount _ => KCount
  | SKey _ => KKey
  | SString _ => KString
  | STraceId _ => KTraceId
  | SForeign _ => KForeign
  end.

Definition thread_record_shape : list kind :=
  [KKey; KString; KTraceId; KString; KTraceId; KTraceId].

(** Was the rank-check flag switched on before [Threads_lock] was taken?
    [seen] tells whether it was switched on so far. *)
Fixpoint skip_set_before_lock (seen : bool) (h : list event) : bool :=
  match h with
  | [] => false
  | Lock_Threads_lock :: _ => seen
  | Set_skip_rank_order_check skip :: rest => skip_set_before_lock skip rest
  | _ :: rest => skip_set_before_lock seen rest
  end.

(** The caller as an outcome leaves it. *)
Definition caller_after (o : outcome state) : Caller :=
  match o with
  | Done s => snd s
  | Fatal s => snd s
  end.

(** ** Sample VMs *)

Definition sample_name (t : Thread) : cstring :=
  if t =? 7 then None else Some "worker".

(** A VM whose enumerations have three values each; threads from 10 on are
    Java threads and thread 7 has no name. *)
Definition sample_vm (assert all_gcs c2 : bool) (all num_types : nat) : HotSpot :=
  {| ASSERT := assert; INCLUDE_ALL_GCS := all_gcs; COMPILER2 := c2;
     JfrThreadId_jfr_id := fun t => Z.of_nat t;
     JfrThreadId_os_id := fun t => (Z.of_nat t + 1000)%Z;
     JfrThreadId_id := fun t => (Z.of_nat t + 100)%Z;
     JfrThreadName_name := sample_name;
     is_Java_thread := fun t => 10 <=? t;
     JfrThreadGroup_thread_group_id := fun t cur => Z.of_nat (100 * t + cur);
     Flag_DEFAULT := 0; Flag_COMMAND_LINE := 1; Flag_ENVIRON_VAR := 2;
     Flag_CONFIG_FILE := 3; Flag_MANAGEMENT := 4; Flag_ERGONOMIC := 5;
     Flag_ATTACH_ON_DEMAND := 6; Flag_INTERNAL := 7;
     Flag_LAST_VALUE_ORIGIN := 7;
     REF_NONE := 0; REF_OTHER := 1; REF_SOFT := 2; REF_WEAK := 3;
     REF_FINAL := 4; REF_PHANTOM := 5;
     ObjectSynchronizer_inflate_cause_nof := 3;
     ObjectSynchronizer_inflate_cause_name := fun _ => Some "cause";
     GCCause__last_gc_cause := 3;
     GCCause_to_string := fun _ => Some "gc cause";
     GCNameEndSentinel := 3;
     GCNameHelper_to_string := fun _ => Some "gc";
     GCWhen_GCWhenEndSentinel := 2;
     GCWhen_to_string := fun _ => Some "when";
     G1HeapRegionTraceType_G1HeapRegionTypeEndSentinel := 3;
     G1HeapRegionTraceType_to_string := fun _ => Some "region";
     MetaspaceGCThresholdUpdater_Last := 3;
     MetaspaceGCThresholdUpdater_to_string := fun _ => Some "updater";
     Metaspace_MetadataTypeCount := 2;
     Metaspace_metadata_type_name := fun _ => Some "metadata";
     MetaspaceObj__number_of_types := 3;
     MetaspaceObj_type_name := fun _ => Some "object";
     G1YCTypeEndSentinel := 3;
     G1YCTypeHelper_to_string := fun _ => Some "yc";
     Universe_HeapBasedNarrowOop := 2;
     Universe_narrow_oop_mode_to_string := fun _ => Some "mode";
     PHASE_NUM_TYPES := 3;
     CompilerPhaseTypeHelper_to_string := fun _ => Some "phase";
     CodeBlobType_All := all;
     CodeBlobType_NumTypes := num_types;
     VM_Operation_VMOp_Terminating := 3;
     VM_Operation_name := fun _ => Some "op" |}.

(** A debug build with every capability and a code cache of one type. *)
Definition debug_vm : HotSpot := sample_vm true true true 0 1.

(** A product build without G1 and C2. *)
Definition lean_vm : HotSpot := sample_vm false false false 0 1.

Definition fresh_writer : JfrCheckpointWriter := {| written := []; stale := [] |}.

(** A writer that holds an earlier pool and the leftovers of a rewind. *)
Definition used_writer : JfrCheckpointWriter :=
  {| written := [SCount 1%Z; SKey 0%Z; SString (Some "earlier")];
     stale := [SReserved 4; SKey 9%Z] |}.

Definition caller (t : Thread) : Caller :=
  {| current := t; skip_rank_order_check := false; history := [] |}.

(** Two Java threads and a native one. *)
Definition three_threads : Registry :=
  {| javathreads := [10; 11]; nonjavathreads := [5] |}.

Definition no_threads : Registry :=
  {| javathreads := []; nonjavathreads := [] |}.

(** A registry whose native thread has no name. *)
Definition nameless_thread : Registry :=
  {| javathreads := [10]; nonjavathreads := [7] |}.

(** ** Vocabulary of the further properties *)

(** Two outcomes end the same way, in states that [R] relates. *)
Definition outcome_rel {A B : Type} (R : A -> B -> Prop)
  (o1 : outcome A) (o2 : outcome B) : Prop :=
  match o1, o2 with
  | Done a, Done b => R a b
  | Fatal a, Fatal b => R a b
  | _, _ => False
  end.

(** The writer as an outcome leaves it. *)
Definition writer_after (o : outcome state) : JfrCheckpointWriter :=
  match o with
  | Done s => fst s
  | Fatal s => fst s
  end.

(** [w] holds what [w0] holds, behind [p]. *)
Definition shifted (p : list slot) (w0 w : JfrCheckpointWriter) : Prop :=
  written w = p ++ written w0.

Definition state_shifted (p : list slot) (s0 s : state) : Prop :=
  shifted p (fst s0) (fst s) /\ snd s = snd s0.

(** Two closures over such writers, at the same point of the enumeration. *)
Definition closure_shifted (p : list slot)
  (tc0 tc : JfrCheckpointThreadClosure) : Prop :=
  shifted p (_writer tc0) (_writer tc) /\
  _ctx tc = length p + _ctx tc0 /\
  _count_position tc = length p + _count_position tc0 /\
  _curthread tc = _curthread tc0 /\
  _count tc = _count tc0.

Section Enumerators.
Context {vm : HotSpot}.

(** The case labels of [flag_value_origin_to_string]. *)
Definition flag_origins : list nat :=
  [Flag_DEFAULT; Flag_COMMAND_LINE; Flag_ENVIRON_VAR; Flag_CONFIG_FILE;
   Flag_MANAGEMENT; Flag_ERGONOMIC; Flag_ATTACH_ON_DEMAND; Flag_INTERNAL].

(** The case labels of [reference_type_to_string]. *)
Definition reference_types : list nat :=
  [REF_NONE; REF_OTHER; REF_SOFT; REF_WEAK; REF_FINAL; REF_PHANTOM].

End Enumerators.

(** A debug build whose reference types skip a value: no enumerator is 5,
    and [REF_PHANTOM] is 6. *)
Definition gap_vm : HotSpot :=
  {| ASSERT := true; INCLUDE_ALL_GCS := true; COMPILER2 := true;
     JfrThreadId_jfr_id := fun t => Z.of_nat t;
     JfrThreadId_os_id := fun t => (Z.of_nat t + 1000)%Z;
     JfrThreadId_id := fun t => (Z.of_nat t + 100)%Z;
     JfrThreadName_name := sample_name;
     is_Java_thread := fun t => 10 <=? t;
     JfrThreadGroup_thread_group_id := fun t cur => Z.of_nat (100 * t + cur);
     Flag_DEFAULT := 0; Flag_COMMAND_LINE := 1; Flag_ENVIRON_VAR := 2;
     Flag_CONFIG_FILE := 3; Flag_MANAGEMENT := 4; Flag_ERGONOMIC := 5;
     Flag_ATTACH_ON_DEMAND := 6; Flag_INTERNAL := 7;
     Flag_LAST_VALUE_ORIGIN := 7;
     REF_NONE := 0; REF_OTHER := 1; REF_SOFT := 2; REF_WEAK := 3;
     REF_FINAL := 4; REF_PHANTOM := 6;
     ObjectSynchronizer_inflate_cause_nof := 3;
     ObjectSynchronizer_inflate_cause_name := fun _ => Some "cause";
     GCCause__last_gc_cause := 3;
     GCCause_to_string := fun _ => Some "gc cause";
     GCNameEndSentinel := 3;
     GCNameHelper_to_string := fun _ => Some "gc";
     GCWhen_GCWhenEndSentinel := 2;
     GCWhen_to_string := fun _ => Some "when";
     G1HeapRegionTraceType_G1HeapRegionTypeEndSentinel := 3;
     G1HeapRegionTraceType_to_string := fun _ => Some "region";
     MetaspaceGCThresholdUpdater_Last := 3;
     MetaspaceGCThresholdUpdater_to_string := fun _ => Some "updater";
     Metaspace_MetadataTypeCount := 2;
     Metaspace_metadata_type_name := fun _ => Some "metadata";
     MetaspaceObj__number_of_types := 3;
     MetaspaceObj_type_name := fun _ => Some "object";
     G1YCTypeEndSentinel := 3;
     G1YCTypeHelper_to_string := fun _ => Some "yc";
     Universe_HeapBasedNarrowOop := 2;
     Universe_narrow_oop_mode_to_string := fun _ => Some "mode";
     PHASE_NUM_TYPES := 3;
     CompilerPhaseTypeHelper_to_string := fun _ => Some "phase";
     CodeBlobType_All := 0;
     CodeBlobType_NumTypes := 1;
     VM_Operation_VMOp_Terminating := 3;
     VM_Operation_name := fun _ => Some "op" |}.

(** Thread 12 alone, a Java thread. *)
Definition only_thread_12 : Registry :=
  {| javathreads := [12]; nonjavathreads := [] |}.

(** * Properties *)

Section Properties.
Context {vm : HotSpot}.

(** ** The writer *)

Lemma written_append s w : written (append s w) = written w ++ [s].
Proof. reflexivity. Qed.

(** A rewind moves the cursor and leaves every slot of the buffer in place. *)
Lemma buffer_set_context ctx w : buffer (set_context ctx w) = buffer w.
Proof.
  unfold buffer, set_context. simpl.
  now rewrite app_assoc, take_drop.
Qed.

Lemma emitted_app w w' l : written w' = written w ++ l -> emitted w w' = l.
Proof.
  intros E. unfold emitted, cursor. rewrite E. now rewrite drop_app_length.
Qed.

Lemma keys_app l1 l2 : keys (l1 ++ l2) = keys l1 ++ keys l2.
Proof. unfold keys. apply omap_app. Qed.

(** ** Ordinal tables *)

Lemma ordinal_entries_S name first n :
  ordinal_entries name first (S n) =
  [SKey (Z.of_nat first); SString (name first)] ++
  ordinal_entries name (S first) n.
Proof. reflexivity. Qed.

Lemma length_ordinal_entries name first n :
  length (ordinal_entries name first n) = 2 * n.
Proof.
  revert first. induction n as [|n IH]; intros first; [reflexivity|].
  rewrite ordinal_entries_S, length_app, IH. simpl. lia.
Qed.

Lemma keys_ordinal_entries name first n :
  keys (ordinal_entries name first n) = map Z.of_nat (seq first n).
Proof.
  revert first. induction n as [|n IH]; intros first; [reflexivity|].
  rewrite ordinal_entries_S, keys_app, IH. reflexivity.
Qed.

(** The loop of a table serializer, by induction on what is left to do. *)
Lemma for_range_write_entry (g : nat -> lookup) (name : nat -> cstring) n :
  forall first w,
    (forall i, first <= i < first + n -> g i = Some (name i)) ->
    exists w',
      for_range first n (write_entry g) w = Done w' /\
      written w' = written w ++ ordinal_entries name first n.
Proof.
  induction n as [|n IH]; intros first w Hg.
  - exists w. split; [reflexivity|]. unfold ordinal_entries. simpl.
    now rewrite app_nil_r.
  - simpl. unfold write_entry at 1. rewrite (Hg first) by lia.
    destruct (IH (S first)
                (write_string (name first) (write_key (Z.of_nat first) w)))
      as (w' & Hrun & Hw).
    { intros i Hi. apply Hg. lia. }
    exists w'. split; [exact Hrun|].
    rewrite Hw, ordinal_entries_S. unfold write_string, write_key.
    rewrite !written_append, <- !app_assoc. reflexivity.
Qed.

Lemma table_loop (g : nat -> lookup) n w :
  (forall i, i < n -> g i <> None) ->
  exists w',
    for_range 0 n (write_entry g) (write_count (Z.of_nat n) w) = Done w' /\
    ordinal_pool n w w'.
Proof.
  intros Hg.
  destruct (for_range_write_entry g (name_of g) n 0 (write_count (Z.of_nat n) w))
    as (w' & Hrun & Hw).
  { intros i Hi. unfold name_of. specialize (Hg i).
    destruct (g i); [reflexivity|]. exfalso. apply Hg; [lia|reflexivity]. }
  exists w'. split; [exact Hrun|]. exists (name_of g).
  rewrite Hw. unfold write_count. rewrite written_append, <- app_assoc.
  reflexivity.
Qed.

Lemma on_writer_Done f s w :
  f (fst s) = Done w -> on_writer f s = Done (w, snd s).
Proof. intros E. unfold on_writer. now rewrite E. Qed.

(** ** Claims on the table serializers *)

(** Every table serializer with a loop is the same loop, over its own
    enumeration and lookup. *)
Lemma table_unfold k reg s n :
  cardinality k = Some n ->
  k <> CodeBlobTypeConstant ->
  capability k <> Some false ->
  serialize k reg s =
  on_writer
    (fun w => for_range 0 n (write_entry (table_lookup k))
                (write_count (Z.of_nat n) w)) s.
Proof.
  intros Hn Hk Hcap.
  destruct k; simpl in Hn; try discriminate; try congruence;
    injection Hn as <-; try reflexivity; simpl in Hcap; simpl;
    unfold G1YCTypeConstant_serialize, CompilerPhaseTypeConstant_serialize.
  - destruct INCLUDE_ALL_GCS; [reflexivity|congruence].
  - destruct COMPILER2; [reflexivity|congruence].
Qed.

Lemma table_lookup_runs k reg s n :
  cardinality k = Some n ->
  runs k reg s ->
  k <> CodeBlobTypeConstant ->
  forall i, i < n -> table_lookup k i <> None.
Proof.
  intros Hn Hruns Hk i Hi.
  destruct k; simpl in Hn; try discriminate; try congruence;
    injection Hn as <-; simpl in *; try discriminate; now apply Hruns.
Qed.

(** What [CodeBlobTypeConstant] leaves in the writer. *)
Lemma CodeBlobTypeConstant_written reg s :
  exists s',
    serialize CodeBlobTypeConstant reg s = Done s' /\
    snd s' = snd s /\
    written (fst s') =
    written (fst s) ++
    [SCount (Z.of_nat CodeBlobType_NumTypes);
     SKey (Z.of_nat CodeBlobType_All); SString (Some "CodeCache")].
Proof.
  eexists. split; [reflexivity|]. split; [reflexivity|]. simpl.
  rewrite <- !app_assoc. reflexivity.
Qed.

(** [CodeBlobTypeConstant] writes an ordinal pool only for a code cache of
    one type whose [All] is 0. *)
Lemma CodeBlobTypeConstant_ordinal_pool_iff reg s :
  ordinal_table_claim CodeBlobTypeConstant reg s <->
  CodeBlobType_NumTypes = 1 /\ CodeBlobType_All = 0.
Proof.
  destruct (CodeBlobTypeConstant_written reg s) as (s1 & Hrun & _ & Hw).
  split.
  - intros H. destruct (H _ eq_refl) as (s' & Hs' & name & Hpool).
    rewrite Hrun in Hs'. injection Hs' as <-.
    rewrite Hw in Hpool. apply app_inv_head in Hpool.
    injection Hpool as Hentries.
    assert (Hlen : 2 = 2 * CodeBlobType_NumTypes).
    { rewrite <- (length_ordinal_entries name 0), <- Hentries. reflexivity. }
    assert (HN : CodeBlobType_NumTypes = 1) by lia.
    split; [exact HN|]. rewrite HN in Hentries.
    injection Hentries as Hkey _. lia.
  - intros [HN HA] n Hn. simpl in Hn. injection Hn as <-.
    exists s1. split; [exact Hrun|]. exists (fun _ => Some "CodeCache").
    rewrite Hw, HN, HA. reflexivity.
Qed.

(** C8.  Whatever the number of code blob types, [CodeBlobTypeConstant]
    appends one entry, a key and a name, behind the count it writes. *)
Theorem CodeBlobTypeConstant_one_entry reg s :
  exists s' count,
    serialize CodeBlobTypeConstant reg s = Done s' /\
    emitted (fst s) (fst s') =
    [SCount count; SKey (Z.of_nat CodeBlobType_All);
     SString (Some "CodeCache")] /\
    length (keys (drop 1 (emitted (fst s) (fst s')))) = 1.
Proof.
  destruct (CodeBlobTypeConstant_written reg s) as (s' & Hrun & _ & Hw).
  exists s', (Z.of_nat CodeBlobType_NumTypes).
  apply emitted_app in Hw. rewrite Hw.
  split; [exact Hrun|]. split; reflexivity.
Qed.

(** A body compiled out leaves [serialize] empty. *)
Lemma gated_off_run k reg s :
  capability k = Some false -> serialize k reg s = Done s.
Proof.
  intros Hcap. destruct s as [w c].
  destruct k; simpl in Hcap; try discriminate; injection Hcap as Hcap;
    simpl; unfold on_writer, G1YCTypeConstant_serialize,
             CompilerPhaseTypeConstant_serialize;
    rewrite Hcap; reflexivity.
Qed.

Lemma emitted_nothing w : emitted w w = [].
Proof. apply emitted_app. now rewrite app_nil_r. Qed.

(** C3, as amended.  Without its build macro a gated table serializer
    returns at once: writer and caller are what they were, and no count, not
    even a zero, is written. *)
Theorem gated_serializer_writes_nothing k reg s :
  capability k = Some false ->
  serialize k reg s = Done s /\ emitted (fst s) (fst s) = [].
Proof.
  intros Hcap. split; [now apply gated_off_run | apply emitted_nothing].
Qed.

(** C4, as amended.  In a build that defines the macro its body is under
    (if it has one), a table serializer whose name lookup knows the
    ordinals below [N] returns after writing count [N] and then [N]
    entries, entry [i] keyed [i], in ordinal order, behind what the writer
    already held.  For [CodeBlobTypeConstant], whose body is one entry
    keyed [CodeBlobType::All], this is for a code cache of one type with
    [All] as its ordinal 0. *)
Theorem table_serializers_write_ordinal_pools k reg s :
  capability k <> Some false ->
  (k = CodeBlobTypeConstant ->
   CodeBlobType_NumTypes = 1 /\ CodeBlobType_All = 0) ->
  runs k reg s ->
  ordinal_table_claim k reg s.
Proof.
  intros Hcap Hblob Hruns.
  assert (Hcases : k = CodeBlobTypeConstant \/ k <> CodeBlobTypeConstant)
    by (destruct k; first [left; reflexivity | right; discriminate]).
  destruct Hcases as [Hk|Hk].
  - subst k. apply CodeBlobTypeConstant_ordinal_pool_iff.
    now apply Hblob.
  - intros n Hn. rewrite (table_unfold k reg s n Hn Hk Hcap).
    destruct (table_loop (table_lookup k) n (fst s)) as (w' & Hrun & Hpool).
    { now apply (table_lookup_runs k reg s). }
    exists (w', snd s). split; [|exact Hpool].
    apply on_writer_Done. exact Hrun.
Qed.

(** ** The thread closure *)

Lemma tally_fits ts : forall a,
  (0 <= a)%Z -> (a + Z.of_nat (length ts) < u4_modulus)%Z ->
  tally ts a = (a + Z.of_nat (length ts))%Z.
Proof.
  induction ts as [|t ts IH]; intros a Ha Hfit; simpl in *.
  - lia.
  - assert (E : u4_incr a = (a + 1)%Z).
    { unfold u4_incr. apply Z.mod_small. lia. }
    unfold tally in *. simpl. rewrite E, IH; lia.
Qed.

Lemma tally_app ts1 ts2 a : tally (ts1 ++ ts2) a = tally ts2 (tally ts1 a).
Proof. unfold tally. apply fold_left_app. Qed.

Lemma keys_thread_record cur t :
  keys (thread_record cur t) = [JfrThreadId_jfr_id t].
Proof. unfold thread_record. now destruct (is_Java_thread t). Qed.

Lemma kinds_thread_record cur t :
  map kind_of (thread_record cur t) = thread_record_shape.
Proof. unfold thread_record. now destruct (is_Java_thread t). Qed.

(** One call of [do_thread] that passes its assertion. *)
Lemma do_thread_Done tc t :
  (ASSERT = true -> JfrThreadName_name t <> None) ->
  exists tc',
    do_thread tc t = Done tc' /\
    written (_writer tc') =
    written (_writer tc) ++ thread_record (_curthread tc) t /\
    _count tc' = u4_incr (_count tc) /\
    _ctx tc' = _ctx tc /\
    _count_position tc' = _count_position tc /\
    _curthread tc' = _curthread tc.
Proof.
  intros Hname. unfold do_thread, thread_record.
  assert (Hpass : ASSERT && is_NULL (JfrThreadName_name t) = false).
  { destruct ASSERT; [|reflexivity].
    destruct (JfrThreadName_name t); [reflexivity|].
    exfalso. now apply Hname. }
  rewrite Hpass.
  destruct (is_Java_thread t); eexists; (split; [reflexivity|]); simpl;
    rewrite <- !app_assoc; repeat split; reflexivity.
Qed.

(** A debug build stops at a thread without a name, the key just written. *)
Lemma do_thread_Fatal tc t :
  ASSERT = true -> JfrThreadName_name t = None ->
  exists tc', do_thread tc t = Fatal tc'.
Proof.
  intros Ha Hn. unfold do_thread. rewrite Ha, Hn. simpl. eexists. reflexivity.
Qed.

(** One iterator loop, by induction on what the iterator still holds. *)
Lemma do_threads_Done ts : forall tc c,
  names_pass_assert ts ->
  exists tc' c',
    do_threads ts tc c = Done (tc', c') /\
    written (_writer tc') =
    written (_writer tc) ++ flat_map (thread_record (_curthread tc)) ts /\
    _count tc' = tally ts (_count tc) /\
    _ctx tc' = _ctx tc /\
    _count_position tc' = _count_position tc /\
    _curthread tc' = _curthread tc /\
    current c' = current c /\
    skip_rank_order_check c' = skip_rank_order_check c /\
    history c' = history c ++ map Do_thread ts.
Proof.
  induction ts as [|t ts IH]; intros tc c Hnames.
  - exists tc, c. simpl. rewrite !app_nil_r. repeat split; reflexivity.
  - assert (Ht : ASSERT = true -> JfrThreadName_name t <> None).
    { intros Ha. specialize (Hnames Ha). now inversion Hnames. }
    assert (Hts : names_pass_assert ts).
    { intros Ha. specialize (Hnames Ha). now inversion Hnames. }
    destruct (do_thread_Done tc t Ht)
      as (tc1 & Hrun1 & Hw1 & Hn1 & Hx1 & Hp1 & Hc1).
    destruct (IH tc1 (record (Do_thread t) c) Hts)
      as (tc2 & c2 & Hrun2 & Hw2 & Hn2 & Hx2 & Hp2 & Hc2 & Hcur & Hskip & Hhist).
    exists tc2, c2. simpl. rewrite Hrun1, Hrun2.
    split; [reflexivity|].
    rewrite Hc1 in Hw2, Hc2. rewrite Hw1, <- app_assoc in Hw2.
    rewrite Hn1 in Hn2. rewrite Hx1 in Hx2. rewrite Hp1 in Hp2.
    simpl in Hhist. rewrite <- app_assoc in Hhist.
    repeat split; assumption.
Qed.

Lemma names_pass_assert_app ts1 ts2 :
  names_pass_assert (ts1 ++ ts2) ->
  names_pass_assert ts1 /\ names_pass_assert ts2.
Proof.
  intros H. split; intros Ha; specialize (H Ha);
    apply Forall_app in H; tauto.
Qed.

(** The enumeration up to the destructor of the closure. *)
Lemma thread_set_run reg w c :
  names_pass_assert (all_threads reg) ->
  exists tc c',
    JfrThreadConstantSet_serialize reg (w, c) =
    Done (JfrCheckpointThreadClosure_delete tc, c') /\
    written (_writer tc) =
    written w ++ SReserved 4 ::
                 flat_map (thread_record (current c)) (all_threads reg) /\
    _count tc = tally (all_threads reg) 0%Z /\
    _ctx tc = cursor w /\
    _count_position tc = cursor w /\
    current c' = current c /\
    skip_rank_order_check c' =
    (if ASSERT then false else skip_rank_order_check c) /\
    history c' = history c ++ enumeration_events (all_threads reg).
Proof.
  intros Hnames. apply names_pass_assert_app in Hnames as [Hj Hn].
  unfold JfrThreadConstantSet_serialize, all_threads.
  set (tc0 := JfrCheckpointThreadClosure_new w (current c)).
  set (c0 := if ASSERT then _ else _).
  destruct (do_threads_Done (javathreads reg) tc0 c0 Hj)
    as (tc1 & c1 & Hrun1 & Hw1 & Hn1 & Hx1 & Hp1 & Hc1 & Hcur1 & Hskip1 & Hh1).
  destruct (do_threads_Done (nonjavathreads reg) tc1 c1 Hn)
    as (tc2 & c2 & Hrun2 & Hw2 & Hn2 & Hx2 & Hp2 & Hc2 & Hcur2 & Hskip2 & Hh2).
  rewrite Hrun1, Hrun2.
  eexists tc2, _. split; [reflexivity|].
  rewrite Hc1 in Hw2. rewrite Hw1, <- app_assoc in Hw2.
  rewrite Hn1 in Hn2. rewrite Hx1 in Hx2. rewrite Hp1 in Hp2.
  rewrite tally_app, flat_map_app.
  assert (E0 : current c0 = current c /\
               skip_rank_order_check c0 =
               (if ASSERT then true else skip_rank_order_check c) /\
               history c0 = history c ++ [Lock_Threads_lock] ++
                 (if ASSERT then [Set_skip_rank_order_check true] else [])).
  { subst c0. destruct ASSERT; simpl; rewrite <- ?app_assoc, ?app_nil_r;
      repeat split; reflexivity. }
  destruct E0 as (E1 & E2 & E3).
  split; [rewrite Hw2; subst tc0; simpl; now rewrite <- app_assoc|].
  split; [rewrite Hn2; reflexivity|].
  split; [rewrite Hx2; reflexivity|].
  split; [rewrite Hp2; reflexivity|].
  split; [destruct ASSERT; simpl; congruence|].
  split; [destruct ASSERT; simpl; congruence|].
  unfold enumeration_events.
  destruct ASSERT; simpl; rewrite Hh2, Hh1, E3, map_app;
    simpl; rewrite <- ?app_assoc; simpl; rewrite <- ?app_assoc; reflexivity.
Qed.

(** The enumeration as a whole: the pool it leaves and what the caller did. *)
Lemma thread_set_Done reg w c :
  names_pass_assert (all_threads reg) ->
  fits_u4 (all_threads reg) ->
  exists w' c',
    JfrThreadConstantSet_serialize reg (w, c) = Done (w', c') /\
    written w' =
    written w ++
    thread_pool (map (thread_record (current c)) (all_threads reg)) /\
    current c' = current c /\
    skip_rank_order_check c' =
    (if ASSERT then false else skip_rank_order_check c) /\
    history c' = history c ++ enumeration_events (all_threads reg).
Proof.
  intros Hnames Hfit.
  destruct (thread_set_run reg w c Hnames)
    as (tc & c' & Hrun & Hw & Hn & Hx & Hp & Hcaller).
  exists (JfrCheckpointThreadClosure_delete tc), c'.
  split; [exact Hrun|]. split; [|exact Hcaller].
  unfold fits_u4 in Hfit.
  rewrite tally_fits, Z.add_0_l in Hn by lia.
  unfold JfrCheckpointThreadClosure_delete. rewrite Hn, Hx, Hp.
  destruct (all_threads reg) as [|t ts] eqn:Hts.
  - simpl. rewrite Hw. simpl.
    unfold cursor. now rewrite take_app_length, app_nil_r.
  - replace (Z.of_nat (length (t :: ts)) =? 0)%Z with false
      by (symmetry; apply Z.eqb_neq; simpl length; lia).
    unfold write_count_at. cbn [written]. rewrite Hw.
    unfold cursor. rewrite insert_app_r_alt by lia.
    rewrite Nat.sub_diag. unfold thread_pool.
    rewrite flat_map_concat_map, length_map. reflexivity.
Qed.

Lemma length_thread_record cur t : length (thread_record cur t) = 6.
Proof. unfold thread_record. now destruct (is_Java_thread t). Qed.

Lemma length_concat_thread_records cur ts :
  length (concat (map (thread_record cur) ts)) = 6 * length ts.
Proof.
  induction ts as [|t ts IH]; [reflexivity|].
  change (concat (map (thread_record cur) (t :: ts)))
    with (thread_record cur t ++ concat (map (thread_record cur) ts)).
  rewrite length_app, IH, length_thread_record. simpl length. lia.
Qed.

Lemma keys_concat_thread_records cur ts :
  keys (concat (map (thread_record cur) ts)) = map JfrThreadId_jfr_id ts.
Proof.
  induction ts as [|t ts IH]; [reflexivity|].
  change (concat (map (thread_record cur) (t :: ts)))
    with (thread_record cur t ++ concat (map (thread_record cur) ts)).
  rewrite keys_app, IH, keys_thread_record. reflexivity.
Qed.

Lemma thread_pool_records cur ts :
  ts <> [] ->
  thread_pool (map (thread_record cur) ts) =
  SCount (Z.of_nat (length ts)) :: concat (map (thread_record cur) ts).
Proof.
  destruct ts as [|t ts]; [congruence|]. intros _.
  unfold thread_pool. rewrite <- (length_map (thread_record cur) (t :: ts)).
  reflexivity.
Qed.

(** ** Claims on the thread enumeration *)

(** C2.  With names that pass the assertion and a tally that fits [u4]:
    when the iterators yield no thread the enumeration returns with the
    cursor and everything before it as they were, the reserved slot gone;
    when they yield some, the reserved slot holds their number and the whole
    pool stays behind the old cursor. *)
Theorem thread_set_rollback_or_patch reg w c :
  names_pass_assert (all_threads reg) ->
  fits_u4 (all_threads reg) ->
  exists w' c',
    JfrThreadConstantSet_serialize reg (w, c) = Done (w', c') /\
    (all_threads reg = [] ->
     context w' = context w /\ written w' = written w /\ emitted w w' = []) /\
    (all_threads reg <> [] ->
     written w' !! cursor w =
     Some (SCount (Z.of_nat (length (all_threads reg)))) /\
     take (cursor w) (written w') = written w /\
     cursor w' = cursor w + 1 + 6 * length (all_threads reg)).
Proof.
  intros Hnames Hfit.
  destruct (thread_set_Done reg w c Hnames Hfit) as (w' & c' & Hrun & Hw & _).
  exists w', c'. split; [exact Hrun|].
  split; intros Hts.
  - rewrite Hts in Hw. simpl in Hw. rewrite app_nil_r in Hw.
    split; [unfold context, cursor; now rewrite Hw|].
    split; [exact Hw|]. apply emitted_app. now rewrite app_nil_r.
  - rewrite thread_pool_records in Hw by exact Hts.
    unfold cursor. rewrite Hw.
    split; [now rewrite list_lookup_middle|].
    split; [now rewrite take_app_length|].
    rewrite length_app, length_cons, length_concat_thread_records. lia.
Qed.

Lemma Forall2_map_r {A B} (P : A -> B -> Prop) (f : A -> B) l :
  (forall x, P x (f x)) -> Forall2 P l (map f l).
Proof. intros H. induction l; simpl; constructor; auto. Qed.

(** C5.  With names that pass the assertion and a tally that fits [u4], the
    pool of the enumeration is made of one record per thread, in iteration
    order; every record is key, name, OS id, Java name, Java id, group id,
    and a thread that is not a Java thread has NULL, 0 and 0 in the last
    three. *)
Theorem thread_records_have_one_shape reg w c :
  names_pass_assert (all_threads reg) ->
  fits_u4 (all_threads reg) ->
  exists w' c' records,
    JfrThreadConstantSet_serialize reg (w, c) = Done (w', c') /\
    emitted w w' = thread_pool records /\
    Forall2
      (fun t r =>
         map kind_of r = thread_record_shape /\
         (is_Java_thread t = false ->
          drop 3 r = [SString None; STraceId 0%Z; STraceId 0%Z]))
      (all_threads reg) records.
Proof.
  intros Hnames Hfit.
  destruct (thread_set_Done reg w c Hnames Hfit) as (w' & c' & Hrun & Hw & _).
  exists w', c', (map (thread_record (current c)) (all_threads reg)).
  split; [exact Hrun|]. split; [now apply emitted_app|].
  apply Forall2_map_r. intros t. split; [apply kinds_thread_record|].
  intros Hnative. unfold thread_record. now rewrite Hnative.
Qed.

(** The pool [JfrThreadConstant] writes for the calling thread. *)
Lemma JfrThreadConstant_written t w :
  exists w',
    JfrThreadConstant_serialize t t w = Done w' /\
    written w' =
    written w ++ SCount 1%Z :: thread_record t t ++
    (if is_Java_thread t
     then [SForeign (ThreadGroup_chain (JfrThreadGroup_thread_group_id t t))]
     else []).
Proof.
  unfold JfrThreadConstant_serialize, thread_record.
  rewrite Nat.eqb_refl, andb_false_r.
  destruct (is_Java_thread t); eexists; (split; [reflexivity|]); simpl;
    rewrite <- !app_assoc; reflexivity.
Qed.

Lemma self_run reg w c :
  exists w',
    serialize (JfrThreadConstant (current c)) reg (w, c) = Done (w', c) /\
    written w' =
    written w ++ SCount 1%Z :: thread_record (current c) (current c) ++
    (if is_Java_thread (current c)
     then [SForeign (ThreadGroup_chain
                       (JfrThreadGroup_thread_group_id (current c) (current c)))]
     else []).
Proof.
  destruct (JfrThreadConstant_written (current c) w) as (w' & Hrun & Hw).
  exists w'. split; [|exact Hw].
  simpl. unfold on_writer. simpl. now rewrite Hrun.
Qed.

Lemma self_passes_assert t cur w :
  ASSERT = false \/ t = cur ->
  JfrThreadConstant_serialize t cur w = JfrThreadConstant_serialize t t w.
Proof.
  intros H. unfold JfrThreadConstant_serialize.
  rewrite (Nat.eqb_refl t), (andb_false_r ASSERT).
  destruct H as [->| ->]; [reflexivity|].
  now rewrite Nat.eqb_refl, andb_false_r.
Qed.

(** C6.  In the pool of the enumeration the group id of a Java thread [t] is
    [thread_group_id(t, curthread)], [curthread] being the thread that runs
    the enumeration.  In the pool [JfrThreadConstant] writes for a Java
    thread [t] it is [thread_group_id(t, t)], whichever thread runs the
    serializer: the calling thread itself, or in a product build, where
    the assertion is compiled out, any other. *)
Theorem group_id_resolving_thread reg w c :
  names_pass_assert (all_threads reg) ->
  fits_u4 (all_threads reg) ->
  (exists w' c' records,
     JfrThreadConstantSet_serialize reg (w, c) = Done (w', c') /\
     emitted w w' = thread_pool records /\
     Forall2
       (fun t r =>
          is_Java_thread t = true ->
          r !! 5 =
          Some (STraceId (JfrThreadGroup_thread_group_id t (current c))))
       (all_threads reg) records) /\
  (forall t,
     is_Java_thread t = true ->
     ASSERT = false \/ t = current c ->
     exists w',
       serialize (JfrThreadConstant t) reg (w, c) = Done (w', c) /\
       emitted w w' !! 6 =
       Some (STraceId (JfrThreadGroup_thread_group_id t t))).
Proof.
  intros Hnames Hfit. split.
  - destruct (thread_set_Done reg w c Hnames Hfit) as (w' & c' & Hrun & Hw & _).
    exists w', c', (map (thread_record (current c)) (all_threads reg)).
    split; [exact Hrun|]. split; [now apply emitted_app|].
    apply Forall2_map_r. intros t Hjava.
    unfold thread_record. now rewrite Hjava.
  - intros t Hjava Hpass.
    destruct (JfrThreadConstant_written t w) as (w' & Hrun & Hw).
    exists w'. split.
    + simpl. unfold on_writer. simpl.
      now rewrite (self_passes_assert t (current c) w Hpass), Hrun.
    + apply emitted_app in Hw. rewrite Hw. unfold thread_record.
      now rewrite Hjava.
Qed.

(** C7.  For the calling thread, Java thread or not, [JfrThreadConstant]
    returns with a pool behind the old cursor that starts with count 1 and
    holds one key; nothing before the old cursor is changed. *)
Theorem self_pool_has_count_one reg w c :
  exists w',
    serialize (JfrThreadConstant (current c)) reg (w, c) = Done (w', c) /\
    emitted w w' !! 0 = Some (SCount 1%Z) /\
    keys (emitted w w') = [JfrThreadId_jfr_id (current c)] /\
    take (cursor w) (written w') = written w /\
    cursor w < cursor w'.
Proof.
  destruct (self_run reg w c) as (w' & Hrun & Hw).
  exists w'. split; [exact Hrun|].
  rewrite (emitted_app _ _ _ Hw).
  split; [reflexivity|].
  split.
  { change (SCount 1%Z :: ?l) with ([SCount 1%Z] ++ l).
    rewrite !keys_app, keys_thread_record.
    now destruct (is_Java_thread (current c)). }
  unfold cursor. rewrite Hw.
  split; [now rewrite take_app_length|].
  rewrite length_app. simpl. lia.
Qed.

(** C10.  For a calling thread that is not a Java thread the pool of
    [JfrThreadConstant] is the count and a record ending in NULL, 0, 0;
    what [JfrThreadGroup::serialize(&writer, id)] writes is in the pool
    exactly when the calling thread is a Java thread. *)
Theorem self_group_chain_iff_java reg w c :
  exists w',
    serialize (JfrThreadConstant (current c)) reg (w, c) = Done (w', c) /\
    (is_Java_thread (current c) = false ->
     emitted w w' =
     [SCount 1%Z; SKey (JfrThreadId_jfr_id (current c));
      SString (JfrThreadName_name (current c));
      STraceId (JfrThreadId_os_id (current c));
      SString None; STraceId 0%Z; STraceId 0%Z]) /\
    ((exists id, In (SForeign (ThreadGroup_chain id)) (emitted w w')) <->
     is_Java_thread (current c) = true).
Proof.
  destruct (self_run reg w c) as (w' & Hrun & Hw).
  exists w'. split; [exact Hrun|].
  rewrite (emitted_app _ _ _ Hw). unfold thread_record.
  destruct (is_Java_thread (current c)); simpl.
  - split; [discriminate|]. split; [reflexivity|].
    intros _. eexists. do 7 right. left. reflexivity.
  - split; [reflexivity|]. split; [|discriminate].
    intros (id & Hin). repeat (destruct Hin as [Hin|Hin]; [discriminate|]).
    destruct Hin.
Qed.

(** ** The rank-check flag *)

Lemma do_thread_Fatal_ASSERT tc t tc' :
  do_thread tc t = Fatal tc' -> ASSERT = true.
Proof.
  unfold do_thread. destruct ASSERT; [reflexivity|]. simpl.
  destruct (is_Java_thread t); discriminate.
Qed.

(** An iterator loop never touches the flag, however it ends. *)
Lemma do_threads_Fatal ts : forall tc c s',
  do_threads ts tc c = Fatal s' ->
  ASSERT = true /\ skip_rank_order_check (snd s') = skip_rank_order_check c.
Proof.
  induction ts as [|t ts IH]; intros tc c s' H; simpl in H; [discriminate|].
  destruct (do_thread tc t) as [tc1|tc1] eqn:Ht.
  - apply IH in H. exact H.
  - injection H as <-. split; [|reflexivity].
    eapply do_thread_Fatal_ASSERT, Ht.
Qed.

Lemma do_threads_skip ts : forall tc c tc' c',
  do_threads ts tc c = Done (tc', c') ->
  skip_rank_order_check c' = skip_rank_order_check c.
Proof.
  induction ts as [|t ts IH]; intros tc c tc' c' H; simpl in H.
  - now injection H as _ <-.
  - destruct (do_thread tc t) as [tc1|tc1]; [|discriminate].
    apply IH in H. exact H.
Qed.

(** C9, as amended.  When the names pass the assertion the enumeration
    returns, and what the caller did is: take [Threads_lock]; in a debug
    build switch the flag on; visit the threads; in a debug build switch the
    flag off; release the lock.  The flag is off on return from a debug
    build and untouched by a product build.  A run that a failed assertion
    stops is a debug run, and stops with the flag on. *)
Theorem rank_check_skipped_under_lock reg w c :
  (names_pass_assert (all_threads reg) ->
   exists w' c',
     JfrThreadConstantSet_serialize reg (w, c) = Done (w', c') /\
     history c' =
     history c ++
     [Lock_Threads_lock] ++
     (if ASSERT then [Set_skip_rank_order_check true] else []) ++
     map Do_thread (all_threads reg) ++
     (if ASSERT then [Set_skip_rank_order_check false] else []) ++
     [Unlock_Threads_lock] /\
     skip_rank_order_check c' =
     (if ASSERT then false else skip_rank_order_check c)) /\
  (forall s',
     JfrThreadConstantSet_serialize reg (w, c) = Fatal s' ->
     ASSERT = true /\ skip_rank_order_check (snd s') = true).
Proof.
  split.
  - intros Hnames.
    destruct (thread_set_run reg w c Hnames)
      as (tc & c' & Hrun & _ & _ & _ & _ & _ & Hskip & Hhist).
    eexists _, c'. split; [exact Hrun|]. split; [exact Hhist | exact Hskip].
  - intros s'. unfold JfrThreadConstantSet_serialize.
    set (tc0 := JfrCheckpointThreadClosure_new w (current c)).
    set (c0 := if ASSERT then _ else _).
    assert (E0 : ASSERT = true -> skip_rank_order_check c0 = true).
    { intros Ha. subst c0. now rewrite Ha. }
    destruct (do_threads (javathreads reg) tc0 c0) as [[tc1 c1]|s1] eqn:H1.
    + destruct (do_threads (nonjavathreads reg) tc1 c1) as [[tc2 c2]|s2] eqn:H2;
        [discriminate|].
      unfold stopped. intros [= <-]. simpl.
      apply do_threads_Fatal in H2 as [Ha H2]. apply do_threads_skip in H1.
      split; [exact Ha|]. rewrite H2, H1. now apply E0.
    + unfold stopped. intros [= <-]. simpl.
      apply do_threads_Fatal in H1 as [Ha H1].
      split; [exact Ha|]. rewrite H1. now apply E0.
Qed.

(** ** Counts and entries *)

Lemma count_matches_ordinal_pool n w w' :
  ordinal_pool n w w' -> count_matches_entries (emitted w w').
Proof.
  intros (name & Hw). rewrite (emitted_app _ _ _ Hw). simpl.
  now rewrite keys_ordinal_entries, length_map, length_seq.
Qed.

Lemma count_matches_thread_pool cur ts :
  count_matches_entries (thread_pool (map (thread_record cur) ts)).
Proof.
  destruct ts as [|t ts]; [exact I|].
  rewrite thread_pool_records by discriminate. unfold count_matches_entries.
  now rewrite keys_concat_thread_records, length_map.
Qed.

End Properties.

(** * Runs on the sample VMs *)

(** The sample registry meets the conditions of the enumeration. *)
Lemma three_threads_named :
  names_pass_assert (vm := debug_vm) (all_threads three_threads).
Proof. intros _. repeat constructor; discriminate. Defined.

Lemma three_threads_fit : fits_u4 (all_threads three_threads).
Proof. reflexivity. Defined.

(** Three threads behind an earlier pool: the count lands in slot 3. *)
Lemma thread_set_rollback_or_patch_witness :
  exists w' c',
    JfrThreadConstantSet_serialize (vm := debug_vm) three_threads
      (used_writer, caller 12) = Done (w', c') /\
    written w' !! 3 = Some (SCount 3%Z) /\
    cursor w' = 22.
Proof.
  destruct (thread_set_rollback_or_patch (vm := debug_vm) three_threads
              used_writer (caller 12) three_threads_named three_threads_fit)
    as (w' & c' & Hrun & _ & Hpatch).
  exists w', c'. split; [exact Hrun|].
  destruct Hpatch as (Hcount & _ & Hcursor); [discriminate|].
  split; [exact Hcount | exact Hcursor].
Defined.

(** C3 as stated fails: built without G1, [G1YCTypeConstant] leaves the
    writer as it found it, and what it emitted is not a pool of count 0. *)
Lemma gated_serializer_counterexample :
  capability (vm := lean_vm) G1YCTypeConstant = Some false /\
  serialize (vm := lean_vm) G1YCTypeConstant no_threads
    (used_writer, caller 12) = Done (used_writer, caller 12) /\
  emitted used_writer used_writer = [] /\
  emitted used_writer used_writer <> [SCount 0%Z].
Proof.
  split; [reflexivity|]. split; [reflexivity|]. split; [reflexivity|].
  vm_compute. discriminate.
Qed.

(** Built without C2, [CompilerPhaseTypeConstant] writes nothing. *)
Lemma gated_serializer_writes_nothing_witness :
  serialize (vm := lean_vm) CompilerPhaseTypeConstant no_threads
    (used_writer, caller 12) = Done (used_writer, caller 12) /\
  emitted used_writer used_writer = [].
Proof.
  apply (gated_serializer_writes_nothing (vm := lean_vm)
           CompilerPhaseTypeConstant no_threads (used_writer, caller 12)).
  reflexivity.
Defined.

(** C4 as stated fails: built without C2, [CompilerPhaseTypeConstant],
    the serializer of an enumeration of three phases, returns without
    writing a pool, of three entries or of any other number. *)
Lemma ordinal_table_counterexample :
  capability (vm := lean_vm) CompilerPhaseTypeConstant = Some false /\
  cardinality (vm := lean_vm) CompilerPhaseTypeConstant = Some 3 /\
  serialize (vm := lean_vm) CompilerPhaseTypeConstant no_threads
    (used_writer, caller 12) = Done (used_writer, caller 12) /\
  ~ ordinal_table_claim (vm := lean_vm) CompilerPhaseTypeConstant no_threads
      (used_writer, caller 12) /\
  (forall n, ~ ordinal_pool n used_writer used_writer).
Proof.
  assert (Hnone : forall n, ~ ordinal_pool n used_writer used_writer).
  { intros n (name & Hpool). apply (f_equal length) in Hpool.
    rewrite length_app, length_cons in Hpool. lia. }
  split; [reflexivity|]. split; [reflexivity|]. split; [reflexivity|].
  split; [|exact Hnone].
  intros H. destruct (H 3 eq_refl) as (s' & Hrun & Hpool).
  injection Hrun as <-. exact (Hnone 3 Hpool).
Qed.

(** The reference types of the sample VM, six of them, all named, and its
    code cache of one type. *)
Lemma table_serializers_write_ordinal_pools_witness :
  ordinal_table_claim (vm := debug_vm) ReferenceTypeConstant no_threads
    (used_writer, caller 12) /\
  ordinal_table_claim (vm := debug_vm) CodeBlobTypeConstant no_threads
    (used_writer, caller 12).
Proof.
  split.
  - apply (table_serializers_write_ordinal_pools (vm := debug_vm)).
    + discriminate.
    + discriminate.
    + intros i Hi. simpl in Hi.
      do 6 (destruct i as [|i]; [discriminate|]). lia.
  - apply (table_serializers_write_ordinal_pools (vm := debug_vm)).
    + discriminate.
    + intros _. split; reflexivity.
    + exact I.
Defined.

(** Three threads give three records. *)
Lemma thread_records_have_one_shape_witness :
  exists w' c' records,
    JfrThreadConstantSet_serialize (vm := debug_vm) three_threads
      (used_writer, caller 12) = Done (w', c') /\
    emitted used_writer w' = thread_pool records /\
    length records = 3.
Proof.
  destruct (thread_records_have_one_shape (vm := debug_vm) three_threads
              used_writer (caller 12) three_threads_named three_threads_fit)
    as (w' & c' & records & Hrun & Hpool & Hshape).
  exists w', c', records. split; [exact Hrun|]. split; [exact Hpool|].
  symmetry. exact (Forall2_length _ _ _ Hshape).
Defined.

(** In a product build every run passes the assertion on names. *)
Lemma three_threads_named_lean :
  names_pass_assert (vm := lean_vm) (all_threads three_threads).
Proof. intros H. discriminate H. Defined.

(** Thread 5 runs both serializers in a product build: the enumeration
    resolves the group of thread 10 against thread 5, the serializer of
    thread 12 resolves its group against thread 12. *)
Lemma group_id_resolving_thread_witness :
  (exists w' c' records,
     JfrThreadConstantSet_serialize (vm := lean_vm) three_threads
       (used_writer, caller 5) = Done (w', c') /\
     emitted used_writer w' = thread_pool records /\
     exists r rest,
       records = r :: rest /\ r !! 5 = Some (STraceId 1005%Z)) /\
  exists w',
    serialize (vm := lean_vm) (JfrThreadConstant 12) three_threads
      (used_writer, caller 5) = Done (w', caller 5) /\
    emitted used_writer w' !! 6 = Some (STraceId 1212%Z).
Proof.
  destruct (group_id_resolving_thread (vm := lean_vm) three_threads
              used_writer (caller 5) three_threads_named_lean three_threads_fit)
    as [(w' & c' & records & Hrun & Hpool & Hgroup) Hself].
  split.
  - exists w', c', records. split; [exact Hrun|]. split; [exact Hpool|].
    inversion Hgroup as [|t r ts rs Hr _ Ht Hrs]. subst t.
    exists r, rs. split; [reflexivity|]. exact (Hr eq_refl).
  - apply (Hself 12); [reflexivity | left; reflexivity].
Defined.

(** C9 as stated fails: in a debug build the flag is switched on after
    [Threads_lock] is taken, not before; and a run stopped by the assertion
    on a thread name stops with the flag on. *)
Lemma rank_check_counterexample :
  history (caller_after
             (serialize (vm := debug_vm) JfrThreadConstantSet three_threads
                (fresh_writer, caller 12))) =
  [Lock_Threads_lock; Set_skip_rank_order_check true;
   Do_thread 10; Do_thread 11; Do_thread 5;
   Set_skip_rank_order_check false; Unlock_Threads_lock] /\
  skip_set_before_lock false
    (history (caller_after
                (serialize (vm := debug_vm) JfrThreadConstantSet three_threads
                   (fresh_writer, caller 12)))) = false /\
  skip_rank_order_check
    (caller_after
       (serialize (vm := debug_vm) JfrThreadConstantSet nameless_thread
          (fresh_writer, caller 12))) = true.
Proof. repeat split; reflexivity. Qed.

(** A run that returns and a run that the assertion stops. *)
Lemma rank_check_skipped_under_lock_witness :
  (exists w' c',
     JfrThreadConstantSet_serialize (vm := debug_vm) three_threads
       (fresh_writer, caller 12) = Done (w', c') /\
     skip_rank_order_check c' = false) /\
  skip_rank_order_check
    (caller_after
       (JfrThreadConstantSet_serialize (vm := debug_vm) nameless_thread
          (fresh_writer, caller 12))) = true.
Proof.
  split.
  - destruct (proj1 (rank_check_skipped_under_lock (vm := debug_vm)
                       three_threads fresh_writer (caller 12))
                three_threads_named)
      as (w' & c' & Hrun & _ & Hskip).
    exists w', c'. split; [exact Hrun | exact Hskip].
  - destruct (JfrThreadConstantSet_serialize (vm := debug_vm) nameless_thread
                (fresh_writer, caller 12)) as [s'|s'] eqn:Hrun.
    + discriminate Hrun.
    + exact (proj2 (proj2 (rank_check_skipped_under_lock (vm := debug_vm)
                             nameless_thread fresh_writer (caller 12))
                      s' Hrun)).
Defined.

(** The scenario of section 8: Java threads 10 and 11 and native thread 5,
    enumerated by thread 12 into a fresh writer. *)
Example scenario_three_threads :
  serialize (vm := debug_vm) JfrThreadConstantSet three_threads
    (fresh_writer, caller 12) =
  Done
    ({| written :=
          [SCount 3%Z;
           SKey 10%Z; SString (Some "worker"); STraceId 1010%Z;
           SString (Some "worker"); STraceId 110%Z; STraceId 1012%Z;
           SKey 11%Z; SString (Some "worker"); STraceId 1011%Z;
           SString (Some "worker"); STraceId 111%Z; STraceId 1112%Z;
           SKey 5%Z; SString (Some "worker"); STraceId 1005%Z;
           SString None; STraceId 0%Z; STraceId 0%Z];
        stale := [] |},
     {| current := 12; skip_rank_order_check := false;
        history :=
          [Lock_Threads_lock; Set_skip_rank_order_check true;
           Do_thread 10; Do_thread 11; Do_thread 5;
           Set_skip_rank_order_check false; Unlock_Threads_lock] |}).
Proof. reflexivity. Qed.

(** An empty registry: the reserved slot stays behind the cursor as a stale
    slot and nothing is written. *)
Example scenario_no_threads :
  serialize (vm := lean_vm) JfrThreadConstantSet no_threads
    (fresh_writer, caller 12) =
  Done
    ({| written := []; stale := [SReserved 4] |},
     {| current := 12; skip_rank_order_check := false;
        history := [Lock_Threads_lock; Unlock_Threads_lock] |}).
Proof. reflexivity. Qed.

(** * Further properties *)

Section Further.
Context {vm : HotSpot}.

(** ** What the writer held before *)

Lemma outcome_rel_impl {A B} (R R' : A -> B -> Prop) o1 o2 :
  (forall a b, R a b -> R' a b) -> outcome_rel R o1 o2 -> outcome_rel R' o1 o2.
Proof. intros H. destruct o1, o2; simpl; auto. Qed.

Lemma append_shifted p s w0 w :
  shifted p w0 w -> shifted p (append s w0) (append s w).
Proof.
  unfold shifted. intros E. rewrite !written_append, E.
  now rewrite app_assoc.
Qed.

(** A table loop started behind [p] does what it does from the start of the
    buffer, behind [p]. *)
Lemma for_range_shifted p g n : forall first w0 w,
  shifted p w0 w ->
  outcome_rel (shifted p)
    (for_range first n (write_entry g) w0)
    (for_range first n (write_entry g) w).
Proof.
  induction n as [|n IH]; intros first w0 w E; simpl; [exact E|].
  assert (Hstep : forall x,
    write_entry g first x =
    match g first with
    | Some s => Done (write_string s (write_key (Z.of_nat first) x))
    | None => Fatal (write_key (Z.of_nat first) x)
    end) by reflexivity.
  rewrite !Hstep. destruct (g first) as [name|].
  - apply IH. unfold write_string, write_key. now do 2 apply append_shifted.
  - simpl. unfold write_key. now apply append_shifted.
Qed.

Lemma on_writer_shifted p f w0 w c :
  outcome_rel (shifted p) (f w0) (f w) ->
  outcome_rel (state_shifted p) (on_writer f (w0, c)) (on_writer f (w, c)).
Proof.
  unfold on_writer. simpl. destruct (f w0), (f w); simpl; try tauto;
    intros E; split; [exact E | reflexivity | exact E | reflexivity].
Qed.

Lemma closure_new_shifted p w0 w cur :
  shifted p w0 w ->
  closure_shifted p (JfrCheckpointThreadClosure_new w0 cur)
    (JfrCheckpointThreadClosure_new w cur).
Proof.
  intros E. unfold JfrCheckpointThreadClosure_new, closure_shifted. simpl.
  split; [now apply append_shifted|].
  unfold context, cursor. rewrite E, length_app. repeat split; reflexivity.
Qed.

Lemma do_thread_shifted p tc0 tc t :
  closure_shifted p tc0 tc ->
  outcome_rel (closure_shifted p) (do_thread tc0 t) (do_thread tc t).
Proof.
  intros (Ew & Ex & Ep & Ec & En). unfold do_thread.
  destruct (ASSERT && is_NULL (JfrThreadName_name t));
    [|destruct (is_Java_thread t)]; simpl; unfold closure_shifted; simpl;
    rewrite ?Ec, ?En;
    (split;
     [ unfold write_key, write_string, write_traceid;
       repeat apply append_shifted; exact Ew
     | repeat split; assumption ]).
Qed.

Lemma do_threads_shifted p ts : forall tc0 tc c,
  closure_shifted p tc0 tc ->
  outcome_rel (fun s0 s => closure_shifted p (fst s0) (fst s) /\ snd s = snd s0)
    (do_threads ts tc0 c) (do_threads ts tc c).
Proof.
  induction ts as [|t ts IH]; intros tc0 tc c E; simpl; [now split|].
  pose proof (do_thread_shifted p tc0 tc t E) as H.
  destruct (do_thread tc0 t) as [a|a], (do_thread tc t) as [b|b];
    simpl in H; try contradiction.
  - now apply IH.
  - simpl. now split.
Qed.

Lemma closure_delete_shifted p tc0 tc :
  closure_shifted p tc0 tc ->
  shifted p (JfrCheckpointThreadClosure_delete tc0)
    (JfrCheckpointThreadClosure_delete tc).
Proof.
  intros (Ew & Ex & Ep & _ & En). unfold JfrCheckpointThreadClosure_delete.
  rewrite En. unfold shifted in *.
  destruct (_count tc0 =? 0)%Z; simpl; rewrite Ew.
  - rewrite Ex. apply take_app_add.
  - rewrite Ep. apply insert_app_r.
Qed.

Lemma thread_set_shifted p reg w0 w c :
  shifted p w0 w ->
  outcome_rel (state_shifted p)
    (JfrThreadConstantSet_serialize reg (w0, c))
    (JfrThreadConstantSet_serialize reg (w, c)).
Proof.
  intros E. unfold JfrThreadConstantSet_serialize.
  set (c1 := if ASSERT then _ else _).
  pose proof (do_threads_shifted p (javathreads reg) _ _ c1
                (closure_new_shifted p w0 w (current c) E)) as H1.
  destruct (do_threads (javathreads reg) (JfrCheckpointThreadClosure_new w0 _) c1)
    as [[a ca]|[a ca]],
    (do_threads (javathreads reg) (JfrCheckpointThreadClosure_new w _) c1)
    as [[b cb]|[b cb]]; simpl in H1; try contradiction;
    destruct H1 as [H1 ->].
  - pose proof (do_threads_shifted p (nonjavathreads reg) a b ca H1) as H2.
    destruct (do_threads (nonjavathreads reg) a ca) as [[a' ca']|[a' ca']],
      (do_threads (nonjavathreads reg) b ca) as [[b' cb']|[b' cb']];
      simpl in H2; try contradiction; destruct H2 as [H2 ->].
    + simpl. split; [now apply closure_delete_shifted | reflexivity].
    + simpl. split; [apply H2 | reflexivity].
  - simpl. split; [apply H1 | reflexivity].
Qed.

Lemma self_shifted p t cur w0 w :
  shifted p w0 w ->
  outcome_rel (shifted p)
    (JfrThreadConstant_serialize t cur w0) (JfrThreadConstant_serialize t cur w).
Proof.
  intros E. unfold JfrThreadConstant_serialize.
  destruct (ASSERT && negb (t =? cur)); [exact E|].
  destruct (is_Java_thread t); simpl;
    unfold write_foreign, write_key, write_string, write_traceid, write_count;
    repeat apply append_shifted; exact E.
Qed.

Ltac table_shifted E :=
  unfold write_count;
  first [ apply for_range_shifted; apply append_shifted; exact E
        | exact E ].

(** Every serializer, started behind [p], ends as it ends from the start of
    the buffer, with the same slots behind [p] and the same caller. *)
Lemma serialize_shifted p k reg w0 w c :
  shifted p w0 w ->
  outcome_rel (state_shifted p) (serialize k reg (w0, c)) (serialize k reg (w, c)).
Proof.
  intros E.
  destruct k; simpl serialize;
    try (apply on_writer_shifted);
    try (now apply thread_set_shifted);
    try (now apply self_shifted).
  - now apply append_shifted.
  - unfold FlagValueOriginConstant_serialize. table_shifted E.
  - unfold MonitorInflateCauseConstant_serialize. table_shifted E.
  - unfold GCCauseConstant_serialize. table_shifted E.
  - unfold GCNameConstant_serialize. table_shifted E.
  - unfold GCWhenConstant_serialize. table_shifted E.
  - unfold G1HeapRegionTypeConstant_serialize. table_shifted E.
  - unfold GCThresholdUpdaterConstant_serialize. table_shifted E.
  - unfold MetadataTypeConstant_serialize. table_shifted E.
  - unfold MetaspaceObjectTypeConstant_serialize. table_shifted E.
  - unfold G1YCTypeConstant_serialize.
    destruct INCLUDE_ALL_GCS; table_shifted E.
  - unfold ReferenceTypeConstant_serialize. table_shifted E.
  - unfold NarrowOopModeConstant_serialize. table_shifted E.
  - unfold CompilerPhaseTypeConstant_serialize.
    destruct COMPILER2; table_shifted E.
  - unfold CodeBlobTypeConstant_serialize, write_count, write_key, write_string.
    simpl. repeat apply append_shifted. exact E.
  - unfold VMOperationTypeConstant_serialize. table_shifted E.
  - now apply append_shifted.
Qed.

Lemma shifted_fresh w : shifted (written w) fresh_writer w.
Proof. unfold shifted. simpl. now rewrite app_nil_r. Qed.

(** X1.  Whatever the serializer and however it ends, on return or in a
    stop of the VM, the slots that were before the cursor when it started
    are still there, unchanged. *)
Theorem earlier_content_untouched k reg w c :
  take (cursor w) (written (writer_after (serialize k reg (w, c)))) =
  written w.
Proof.
  pose proof (serialize_shifted (written w) k reg fresh_writer w c
                (shifted_fresh w)) as H.
  destruct (serialize k reg (fresh_writer, c)) as [s0|s0],
    (serialize k reg (w, c)) as [s|s]; simpl in H; try contradiction;
    destruct H as [H _]; unfold shifted in H; simpl; rewrite H;
    unfold cursor; apply take_app_length.
Qed.

(** X2.  What a serializer adds to the writer, how it ends and what it does
    to the caller do not depend on what the writer held before. *)
Theorem pool_independent_of_earlier_content k reg c w1 w2 :
  outcome_rel
    (fun s1 s2 =>
       emitted w1 (fst s1) = emitted w2 (fst s2) /\ snd s1 = snd s2)
    (serialize k reg (w1, c)) (serialize k reg (w2, c)).
Proof.
  pose proof (serialize_shifted (written w1) k reg fresh_writer w1 c
                (shifted_fresh w1)) as H1.
  pose proof (serialize_shifted (written w2) k reg fresh_writer w2 c
                (shifted_fresh w2)) as H2.
  destruct (serialize k reg (fresh_writer, c)) as [s0|s0],
    (serialize k reg (w1, c)) as [s1|s1],
    (serialize k reg (w2, c)) as [s2|s2]; simpl in *; try contradiction;
    destruct H1 as [H1 E1], H2 as [H2 E2];
    rewrite (emitted_app _ _ _ H1), (emitted_app _ _ _ H2);
    split; congruence.
Qed.

(** ** When the enumeration returns *)

Lemma do_thread_Done_name tc t tc' :
  do_thread tc t = Done tc' -> ASSERT = true -> JfrThreadName_name t <> None.
Proof.
  unfold do_thread. intros H Ha Hn. rewrite Ha, Hn in H. discriminate H.
Qed.

Lemma do_threads_Done_names ts : forall tc c s',
  do_threads ts tc c = Done s' -> names_pass_assert ts.
Proof.
  induction ts as [|t ts IH]; intros tc c s' H Ha; [constructor|].
  simpl in H. destruct (do_thread tc t) as [tc1|tc1] eqn:Ht; [|discriminate].
  constructor.
  - now apply (do_thread_Done_name tc t tc1).
  - now apply (IH _ _ _ H).
Qed.

(** The two iterator loops are one loop over what both iterators yield. *)
Lemma do_threads_app ts1 ts2 : forall tc c,
  do_threads (ts1 ++ ts2) tc c =
  match do_threads ts1 tc c with
  | Done s' => do_threads ts2 (fst s') (snd s')
  | Fatal s' => Fatal s'
  end.
Proof.
  induction ts1 as [|t ts1 IH]; intros tc c; simpl; [reflexivity|].
  destruct (do_thread tc t); [apply IH | reflexivity].
Qed.

Lemma thread_set_one_loop reg w c :
  JfrThreadConstantSet_serialize reg (w, c) =
  match
    do_threads (all_threads reg)
      (JfrCheckpointThreadClosure_new w (current c))
      (if ASSERT
       then set_skip_rank_order_check true (record Lock_Threads_lock c)
       else record Lock_Threads_lock c)
  with
  | Fatal s' => stopped s'
  | Done s' =>
      Done
        (JfrCheckpointThreadClosure_delete (fst s'),
         record Unlock_Threads_lock
           (if ASSERT then set_skip_rank_order_check false (snd s')
            else snd s'))
  end.
Proof.
  unfold JfrThreadConstantSet_serialize, all_threads.
  rewrite do_threads_app.
  destruct (do_threads (javathreads reg) _ _) as [[tc1 c1]|s1];
    [|reflexivity].
  simpl. destruct (do_threads (nonjavathreads reg) tc1 c1) as [[tc2 c2]|s2];
    reflexivity.
Qed.

Lemma thread_set_returns_iff_named_aux reg s :
  (exists s', JfrThreadConstantSet_serialize reg s = Done s') ->
  names_pass_assert (all_threads reg).
Proof.
  destruct s as [w c]. intros (s' & H). rewrite thread_set_one_loop in H.
  destruct (do_threads (all_threads reg) _ _) as [s1|s1] eqn:H1;
    [|discriminate H].
  now apply (do_threads_Done_names _ _ _ _ H1).
Qed.

(** X3.  The enumeration returns exactly when no thread name stops it: in a
    product build always, in a debug build when every thread the iterators
    yield has a name. *)
Theorem thread_set_returns_iff_named reg s :
  (exists s', JfrThreadConstantSet_serialize reg s = Done s') <->
  names_pass_assert (all_threads reg).
Proof.
  split; [apply thread_set_returns_iff_named_aux|].
  destruct s as [w c].
  - intros Hnames.
    destruct (thread_set_run reg w c Hnames) as (tc & c' & Hrun & _).
    eexists. exact Hrun.
Qed.

(** ** The counter of the enumeration *)

Lemma tally_mod ts : forall a,
  tally ts (a mod u4_modulus)%Z =
  ((a + Z.of_nat (length ts)) mod u4_modulus)%Z.
Proof.
  induction ts as [|t ts IH]; intros a.
  - simpl. now rewrite Z.add_0_r.
  - change (tally (t :: ts) (a mod u4_modulus)%Z)
      with (tally ts (u4_incr (a mod u4_modulus)%Z)).
    unfold u4_incr. rewrite Zplus_mod_idemp_l, IH.
    f_equal. rewrite length_cons. lia.
Qed.

(** The enumeration with a counter that may wrap around. *)
Lemma thread_set_wraps reg w c :
  names_pass_assert (all_threads reg) ->
  exists w' c',
    JfrThreadConstantSet_serialize reg (w, c) = Done (w', c') /\
    written w' =
    written w ++
    (if (Z.of_nat (length (all_threads reg)) mod u4_modulus =? 0)%Z then []
     else SCount (Z.of_nat (length (all_threads reg)) mod u4_modulus)%Z ::
          concat (map (thread_record (current c)) (all_threads reg))).
Proof.
  intros Hnames.
  destruct (thread_set_run reg w c Hnames)
    as (tc & c' & Hrun & Hw & Hn & Hx & Hp & _).
  exists (JfrCheckpointThreadClosure_delete tc), c'. split; [exact Hrun|].
  change 0%Z with (0 mod u4_modulus)%Z in Hn at 1.
  rewrite tally_mod, Z.add_0_l in Hn.
  unfold JfrCheckpointThreadClosure_delete. rewrite Hn, Hx, Hp.
  destruct (Z.of_nat (length (all_threads reg)) mod u4_modulus =? 0)%Z.
  - simpl. rewrite Hw. unfold cursor. now rewrite take_app_length, app_nil_r.
  - unfold write_count_at. cbn [written]. rewrite Hw.
    unfold cursor. rewrite insert_app_r_alt by lia.
    rewrite Nat.sub_diag, flat_map_concat_map. reflexivity.
Qed.

(** X4.  The counter of the enumeration is a [u4]: the count that ends up in
    the pool is the number of threads modulo 2^32, and when that is 0 (no
    thread, or a multiple of 2^32 of them) the enumeration rolls back and
    leaves nothing. *)
Theorem thread_set_count_wraps reg w c :
  names_pass_assert (all_threads reg) ->
  exists w' c',
    JfrThreadConstantSet_serialize reg (w, c) = Done (w', c') /\
    ((Z.of_nat (length (all_threads reg)) mod 2 ^ 32 = 0)%Z ->
     written w' = written w) /\
    ((Z.of_nat (length (all_threads reg)) mod 2 ^ 32 <> 0)%Z ->
     written w' !! cursor w =
     Some (SCount (Z.of_nat (length (all_threads reg)) mod 2 ^ 32)%Z) /\
     cursor w' = cursor w + 1 + 6 * length (all_threads reg)).
Proof.
  intros Hnames.
  destruct (thread_set_wraps reg w c Hnames) as (w' & c' & Hrun & Hw).
  exists w', c'. split; [exact Hrun|].
  change (2 ^ 32)%Z with u4_modulus.
  destruct (Z.eqb_spec (Z.of_nat (length (all_threads reg)) mod u4_modulus) 0)
    as [E|E]; (split; [intros E'|intros E']); try contradiction.
  - now rewrite app_nil_r in Hw.
  - unfold cursor. rewrite Hw.
    split; [now rewrite list_lookup_middle|].
    rewrite length_app, length_cons, length_concat_thread_records. lia.
Qed.

(** ** What the pool of the enumeration holds *)

(** X5.  In the pool of the enumeration the entries of the threads of the
    Java iterator come first, in its order, then those of the other
    iterator, each keyed by the JFR id of its thread. *)
Theorem thread_set_keys_in_iteration_order reg w c :
  names_pass_assert (all_threads reg) ->
  fits_u4 (all_threads reg) ->
  exists w' c',
    JfrThreadConstantSet_serialize reg (w, c) = Done (w', c') /\
    keys (emitted w w') =
    map JfrThreadId_jfr_id (javathreads reg) ++
    map JfrThreadId_jfr_id (nonjavathreads reg).
Proof.
  intros Hnames Hfit.
  destruct (thread_set_Done reg w c Hnames Hfit) as (w' & c' & Hrun & Hw & _).
  exists w', c'. split; [exact Hrun|].
  rewrite (emitted_app _ _ _ Hw), <- map_app. fold (all_threads reg).
  destruct (all_threads reg) as [|t ts] eqn:Hts; [reflexivity|].
  rewrite thread_pool_records by discriminate.
  change (SCount ?n :: ?l) with ([SCount n] ++ l).
  rewrite keys_app, keys_concat_thread_records. reflexivity.
Qed.

(** X6.  Every record of the pool starts with the JFR id, the name and the
    OS id of its thread; for a Java thread the name comes a second time,
    followed by the Java thread id. *)
Theorem thread_record_fields reg w c :
  names_pass_assert (all_threads reg) ->
  fits_u4 (all_threads reg) ->
  exists w' c' records,
    JfrThreadConstantSet_serialize reg (w, c) = Done (w', c') /\
    emitted w w' = thread_pool records /\
    Forall2
      (fun t r =>
         r !! 0 = Some (SKey (JfrThreadId_jfr_id t)) /\
         r !! 1 = Some (SString (JfrThreadName_name t)) /\
         r !! 2 = Some (STraceId (JfrThreadId_os_id t)) /\
         (is_Java_thread t = true ->
          r !! 3 = Some (SString (JfrThreadName_name t)) /\
          r !! 4 = Some (STraceId (JfrThreadId_id t))))
      (all_threads reg) records.
Proof.
  intros Hnames Hfit.
  destruct (thread_set_Done reg w c Hnames Hfit) as (w' & c' & Hrun & Hw & _).
  exists w', c', (map (thread_record (current c)) (all_threads reg)).
  split; [exact Hrun|]. split; [now apply emitted_app|].
  apply Forall2_map_r. intros t. unfold thread_record.
  split; [reflexivity|]. split; [reflexivity|]. split; [reflexivity|].
  intros Hjava. rewrite Hjava. split; reflexivity.
Qed.

(** ** A stop in the enumeration *)

(** One loop up to the first thread without a name, in a debug build. *)
Lemma do_threads_stop pre t post : forall tc c,
  ASSERT = true ->
  Forall (fun u => JfrThreadName_name u <> None) pre ->
  JfrThreadName_name t = None ->
  exists tc' c',
    do_threads (pre ++ t :: post) tc c = Fatal (tc', c') /\
    written (_writer tc') =
    written (_writer tc) ++
    flat_map (thread_record (_curthread tc)) pre ++
    [SKey (JfrThreadId_jfr_id t)] /\
    skip_rank_order_check c' = skip_rank_order_check c /\
    history c' = history c ++ map Do_thread pre ++ [Do_thread t].
Proof.
  induction pre as [|u pre IH]; intros tc c Ha Hpre Ht.
  - simpl. unfold do_thread. rewrite Ha, Ht. simpl.
    eexists _, _. split; [reflexivity|]. simpl. repeat split; reflexivity.
  - apply Forall_cons in Hpre as [Hu Hpre].
    destruct (do_thread_Done tc u (fun _ => Hu))
      as (tc1 & Hrun1 & Hw1 & _ & _ & _ & Hc1).
    destruct (IH tc1 (record (Do_thread u) c) Ha Hpre Ht)
      as (tc2 & c2 & Hrun2 & Hw2 & Hskip & Hhist).
    exists tc2, c2.
    split; [simpl; rewrite Hrun1; exact Hrun2|].
    rewrite Hc1, Hw1, <- !app_assoc in Hw2.
    simpl in Hhist. rewrite <- app_assoc in Hhist.
    split; [|split; assumption].
    rewrite Hw2.
    change (flat_map ?f (u :: pre)) with (f u ++ flat_map f pre).
    now rewrite <- app_assoc.
Qed.

(** X7.  In a debug build the enumeration stops the VM at the first thread
    without a name.  By then it has written the records of the threads
    before it and the key of that thread; the count slot is still the
    reserved one, the flag is on and [Threads_lock] has not been released. *)
Theorem thread_set_stops_at_nameless reg w c pre t post :
  ASSERT = true ->
  all_threads reg = pre ++ t :: post ->
  Forall (fun u => JfrThreadName_name u <> None) pre ->
  JfrThreadName_name t = None ->
  exists w' c',
    JfrThreadConstantSet_serialize reg (w, c) = Fatal (w', c') /\
    emitted w w' =
    SReserved 4 :: concat (map (thread_record (current c)) pre) ++
    [SKey (JfrThreadId_jfr_id t)] /\
    history c' =
    history c ++
    [Lock_Threads_lock; Set_skip_rank_order_check true] ++
    map Do_thread pre ++ [Do_thread t] /\
    skip_rank_order_check c' = true.
Proof.
  intros Ha Hsplit Hpre Ht. rewrite thread_set_one_loop, Hsplit, Ha.
  destruct (do_threads_stop pre t post
              (JfrCheckpointThreadClosure_new w (current c))
              (set_skip_rank_order_check true (record Lock_Threads_lock c))
              Ha Hpre Ht)
    as (tc' & c' & Hrun & Hw & Hskip & Hhist).
  exists (_writer tc'), c'. rewrite Hrun. split; [reflexivity|].
  split; [|split].
  - apply emitted_app. rewrite Hw. simpl.
    rewrite <- app_assoc, flat_map_concat_map. reflexivity.
  - rewrite Hhist. simpl. rewrite <- !app_assoc. reflexivity.
  - rewrite Hskip. reflexivity.
Qed.

(** ** The calling thread, alone *)

(** X8.  For a registry that holds the calling thread alone, the pool of
    [JfrThreadConstant] is the pool of the enumeration, followed for a Java
    thread by what [JfrThreadGroup::serialize(&writer, id)] writes. *)
Theorem self_pool_extends_enumeration reg w c :
  all_threads reg = [current c] ->
  names_pass_assert [current c] ->
  exists w1 w2 c2,
    serialize (JfrThreadConstant (current c)) reg (w, c) = Done (w1, c) /\
    serialize JfrThreadConstantSet reg (w, c) = Done (w2, c2) /\
    emitted w w1 =
    emitted w w2 ++
    (if is_Java_thread (current c)
     then [SForeign (ThreadGroup_chain
                       (JfrThreadGroup_thread_group_id (current c) (current c)))]
     else []).
Proof.
  intros Hreg Hnames.
  destruct (self_run reg w c) as (w1 & Hrun1 & Hw1).
  destruct (thread_set_Done reg w c) as (w2 & c2 & Hrun2 & Hw2 & _).
  { now rewrite Hreg. }
  { rewrite Hreg. reflexivity. }
  exists w1, w2, c2. split; [exact Hrun1|]. split; [exact Hrun2|].
  rewrite (emitted_app _ _ _ Hw1), (emitted_app _ _ _ Hw2), Hreg.
  simpl. rewrite app_nil_r. reflexivity.
Qed.

(** X9.  [JfrThreadConstant] stops the VM exactly in a debug build in which
    its thread is not the calling thread, and then before it has written
    anything; otherwise it returns with a pool keyed by the JFR id of its
    thread. *)
Theorem self_stops_iff_foreign_thread t reg s :
  (ASSERT = true /\ t <> current (snd s) ->
   serialize (JfrThreadConstant t) reg s = Fatal s) /\
  (ASSERT = false \/ t = current (snd s) ->
   exists w',
     serialize (JfrThreadConstant t) reg s = Done (w', snd s) /\
     keys (emitted (fst s) w') = [JfrThreadId_jfr_id t]).
Proof.
  destruct s as [w c]. simpl. unfold on_writer, JfrThreadConstant_serialize.
  simpl. split.
  - intros [Ha Hne]. apply Nat.eqb_neq in Hne. now rewrite Ha, Hne.
  - intros Hok.
    assert (E : ASSERT && negb (t =? current c) = false).
    { destruct Hok as [->| ->]; [reflexivity|].
      now rewrite Nat.eqb_refl, andb_false_r. }
    rewrite E.
    destruct (is_Java_thread t); eexists; (split; [reflexivity|]);
      unfold emitted, cursor; simpl; rewrite <- !app_assoc;
      rewrite drop_app_length; reflexivity.
Qed.

(** ** Name lookups that know no name *)

Lemma write_entry_step g i w :
  write_entry g i w =
  match g i with
  | Some s => Done (write_string s (write_key (Z.of_nat i) w))
  | None => Fatal (write_key (Z.of_nat i) w)
  end.
Proof. reflexivity. Qed.

(** A table loop that returns has found a name for every ordinal. *)
Lemma for_range_Done_lookup g n : forall first w w',
  for_range first n (write_entry g) w = Done w' ->
  forall i, first <= i < first + n -> g i <> None.
Proof.
  induction n as [|n IH]; intros first w w' H i Hi; [lia|].
  simpl in H. rewrite write_entry_step in H.
  destruct (g first) as [name|] eqn:Hg; [|discriminate H].
  destruct (Nat.eq_dec i first) as [->|Hne]; [congruence|].
  apply (IH _ _ _ H). lia.
Qed.

(** A table loop stops at the first ordinal without a name, its key
    written. *)
Lemma for_range_Fatal g n : forall first w j,
  first <= j < first + n ->
  (forall i, first <= i < j -> g i <> None) ->
  g j = None ->
  exists w',
    for_range first n (write_entry g) w = Fatal w' /\
    written w' =
    written w ++ ordinal_entries (name_of g) first (j - first) ++
    [SKey (Z.of_nat j)].
Proof.
  induction n as [|n IH]; intros first w j Hj Hbefore Hnone; [lia|].
  simpl. rewrite write_entry_step.
  destruct (Nat.eq_dec j first) as [->|Hne].
  - rewrite Hnone, Nat.sub_diag. eexists. split; [reflexivity|].
    reflexivity.
  - destruct (g first) as [name|] eqn:Hg.
    2: { exfalso. apply (Hbefore first); [lia | exact Hg]. }
    destruct (IH (S first)
                (write_string name (write_key (Z.of_nat first) w)) j)
      as (w' & Hrun & Hw); [lia | intros i Hi; apply Hbefore; lia | exact Hnone |].
    exists w'. split; [exact Hrun|]. rewrite Hw.
    replace (j - first) with (S (j - S first)) by lia.
    rewrite ordinal_entries_S. unfold name_of at 2. rewrite Hg.
    unfold write_string, write_key. rewrite !written_append, <- !app_assoc.
    reflexivity.
Qed.

Lemma on_writer_Done_inv f s s' :
  on_writer f s = Done s' -> f (fst s) = Done (fst s') /\ snd s' = snd s.
Proof.
  unfold on_writer. destruct (f (fst s)); [|discriminate].
  intros [= <-]. split; reflexivity.
Qed.

Lemma table_Done_lookup k reg s n s' :
  cardinality k = Some n ->
  k <> CodeBlobTypeConstant ->
  capability k <> Some false ->
  serialize k reg s = Done s' ->
  forall i, i < n -> table_lookup k i <> None.
Proof.
  intros Hn Hk Hcap H i Hi. rewrite (table_unfold k reg s n Hn Hk Hcap) in H.
  apply on_writer_Done_inv in H as [H _].
  apply (for_range_Done_lookup _ _ _ _ _ H). lia.
Qed.

(** X10.  A table serializer whose lookup knows the ordinals below [j] and
    not [j] itself stops the VM there: the count [N] is in the writer,
    followed by the entries 0 to [j - 1] and the key [j], no name behind
    it. *)
Theorem table_stops_at_unknown_ordinal k reg s n j :
  cardinality k = Some n ->
  k <> CodeBlobTypeConstant ->
  capability k <> Some false ->
  j < n ->
  (forall i, i < j -> table_lookup k i <> None) ->
  table_lookup k j = None ->
  exists w',
    serialize k reg s = Fatal (w', snd s) /\
    emitted (fst s) w' =
    SCount (Z.of_nat n) ::
    ordinal_entries (name_of (table_lookup k)) 0 j ++ [SKey (Z.of_nat j)].
Proof.
  intros Hn Hk Hcap Hj Hbefore Hnone.
  rewrite (table_unfold k reg s n Hn Hk Hcap).
  destruct (for_range_Fatal (table_lookup k) n 0
              (write_count (Z.of_nat n) (fst s)) j)
    as (w' & Hrun & Hw); [lia | intros i Hi; apply Hbefore; lia | exact Hnone |].
  exists w'. unfold on_writer. rewrite Hrun. split; [reflexivity|].
  apply emitted_app. rewrite Hw. unfold write_count.
  rewrite written_append, Nat.sub_0_r, <- app_assoc. reflexivity.
Qed.

Lemma flag_lookup_iff i :
  flag_value_origin_to_string i <> None <-> In i flag_origins.
Proof.
  unfold flag_value_origin_to_string, flag_origins. simpl.
  repeat match goal with
         | |- context [i =? ?x] =>
             let E := fresh "E" in
             destruct (Nat.eqb_spec i x) as [E|E];
             [symmetry in E; split; [intros _; tauto | discriminate]|]
         end.
  split; [intros H; exfalso; now apply H | intuition congruence].
Qed.

Lemma reference_lookup_iff i :
  reference_type_to_string i <> None <-> In i reference_types.
Proof.
  unfold reference_type_to_string, reference_types. simpl.
  repeat match goal with
         | |- context [i =? ?x] =>
             let E := fresh "E" in
             destruct (Nat.eqb_spec i x) as [E|E];
             [symmetry in E; split; [intros _; tauto | discriminate]|]
         end.
  split; [intros H; exfalso; now apply H | intuition congruence].
Qed.

(** X11.  [FlagValueOriginConstant] returns exactly when every ordinal from
    0 to [LAST_VALUE_ORIGIN] is one of the eight origins its switch names;
    otherwise it runs into [ShouldNotReachHere]. *)
Theorem flag_origins_return_iff_covered reg s :
  (exists s', serialize FlagValueOriginConstant reg s = Done s') <->
  (forall i, i <= Flag_LAST_VALUE_ORIGIN -> In i flag_origins).
Proof.
  split.
  - intros (s' & H) i Hi. apply flag_lookup_iff.
    apply (table_Done_lookup FlagValueOriginConstant reg s _ s' eq_refl);
      [discriminate | discriminate | exact H | lia].
  - intros Hcover.
    destruct (table_loop flag_value_origin_to_string
                (Flag_LAST_VALUE_ORIGIN + 1) (fst s)) as (w' & Hrun & _).
    { intros i Hi. apply flag_lookup_iff, Hcover. lia. }
    exists (w', snd s). now apply on_writer_Done.
Qed.

(** X12.  [ReferenceTypeConstant] returns exactly when every ordinal from 0
    to [REF_PHANTOM] is one of the six reference types its switch names. *)
Theorem reference_types_return_iff_covered reg s :
  (exists s', serialize ReferenceTypeConstant reg s = Done s') <->
  (forall i, i <= REF_PHANTOM -> In i reference_types).
Proof.
  split.
  - intros (s' & H) i Hi. apply reference_lookup_iff.
    apply (table_Done_lookup ReferenceTypeConstant reg s _ s' eq_refl);
      [discriminate | discriminate | exact H | lia].
  - intros Hcover.
    destruct (table_loop reference_type_to_string (REF_PHANTOM + 1) (fst s))
      as (w' & Hrun & _).
    { intros i Hi. apply reference_lookup_iff, Hcover. lia. }
    exists (w', snd s). now apply on_writer_Done.
Qed.

Lemma In_ordinal_entries name x n : forall first,
  In x (ordinal_entries name first n) ->
  exists i, first <= i < first + n /\
            (x = SKey (Z.of_nat i) \/ x = SString (name i)).
Proof.
  induction n as [|n IH]; intros first H; [destruct H|].
  rewrite ordinal_entries_S in H. apply in_app_or in H as [H|H].
  - exists first. split; [lia|].
    destruct H as [<-|[<-|[]]]; [left | right]; reflexivity.
  - destruct (IH _ H) as (i & Hi & Hx). exists i. split; [lia | exact Hx].
Qed.

Lemma flag_lookup_named i : flag_value_origin_to_string i <> Some None.
Proof.
  unfold flag_value_origin_to_string.
  repeat match goal with
         | |- context [i =? ?x] => destruct (i =? x); [discriminate|]
         end.
  discriminate.
Qed.

Lemma reference_lookup_named i : reference_type_to_string i <> Some None.
Proof.
  unfold reference_type_to_string.
  repeat match goal with
         | |- context [i =? ?x] => destruct (i =? x); [discriminate|]
         end.
  discriminate.
Qed.

(** The pool of a table loop that returned. *)
Lemma table_Done_written k reg s n s' :
  cardinality k = Some n ->
  k <> CodeBlobTypeConstant ->
  capability k <> Some false ->
  serialize k reg s = Done s' ->
  emitted (fst s) (fst s') =
  SCount (Z.of_nat n) :: ordinal_entries (name_of (table_lookup k)) 0 n.
Proof.
  intros Hn Hk Hcap H.
  pose proof (table_Done_lookup k reg s n s' Hn Hk Hcap H) as Hlookup.
  rewrite (table_unfold k reg s n Hn Hk Hcap) in H.
  apply on_writer_Done_inv in H as [H _].
  destruct (for_range_write_entry (table_lookup k) (name_of (table_lookup k))
              n 0 (write_count (Z.of_nat n) (fst s)))
    as (w' & Hrun & Hw).
  { intros i Hi. unfold name_of. specialize (Hlookup i).
    destruct (table_lookup k i); [reflexivity|].
    exfalso. apply Hlookup; [lia | reflexivity]. }
  rewrite Hrun in H. injection H as <-.
  apply emitted_app. rewrite Hw. unfold write_count.
  rewrite written_append, <- app_assoc. reflexivity.
Qed.

(** X13.  The pools of [FlagValueOriginConstant] and
    [ReferenceTypeConstant] hold no NULL name: the NULL that
    [reference_type_to_string] returns behind [ShouldNotReachHere] never
    reaches the writer. *)
Theorem switch_names_never_NULL k reg s s' :
  k = FlagValueOriginConstant \/ k = ReferenceTypeConstant ->
  serialize k reg s = Done s' ->
  ~ In (SString None) (emitted (fst s) (fst s')).
Proof.
  intros Hk H Hin.
  assert (Hn : exists n, cardinality k = Some n)
    by (destruct Hk as [->| ->]; eexists; reflexivity).
  destruct Hn as (n & Hn).
  assert (Hne : k <> CodeBlobTypeConstant)
    by (destruct Hk as [->| ->]; discriminate).
  assert (Hcap : capability k <> Some false)
    by (destruct Hk as [->| ->]; discriminate).
  pose proof (table_Done_lookup k reg s n s' Hn Hne Hcap H) as Hlookup.
  rewrite (table_Done_written k reg s n s' Hn Hne Hcap H) in Hin.
  destruct Hin as [Hin|Hin]; [discriminate|].
  apply In_ordinal_entries in Hin as (i & Hi & [Hx|Hx]); [discriminate|].
  injection Hx as Hx. unfold name_of in Hx. specialize (Hlookup i).
  destruct (table_lookup k i) as [name|] eqn:Hg;
    [|apply Hlookup; [lia | reflexivity]].
  subst name.
  destruct Hk as [->| ->]; simpl in Hg;
    [now apply (flag_lookup_named i) | now apply (reference_lookup_named i)].
Qed.

(** ** Reserved slots *)

Lemma Forall_ordinal_entries (P : slot -> Prop) name n : forall first,
  (forall x, P (SKey x)) -> (forall x, P (SString x)) ->
  Forall P (ordinal_entries name first n).
Proof.
  induction n as [|n IH]; intros first Hkey Hstr; [constructor|].
  rewrite ordinal_entries_S. apply Forall_app. split; [|now apply IH].
  repeat constructor; auto.
Qed.

Lemma thread_record_not_reserved cur t :
  Forall (fun x => kind_of x <> KReserved) (thread_record cur t).
Proof.
  unfold thread_record.
  destruct (is_Java_thread t); repeat constructor; discriminate.
Qed.

Lemma thread_records_not_reserved cur ts :
  Forall (fun x => kind_of x <> KReserved)
    (concat (map (thread_record cur) ts)).
Proof.
  induction ts as [|t ts IH]; [constructor|].
  change (concat (map (thread_record cur) (t :: ts)))
    with (thread_record cur t ++ concat (map (thread_record cur) ts)).
  apply Forall_app. split; [apply thread_record_not_reserved | exact IH].
Qed.

Lemma self_Done_own t cur w w' :
  JfrThreadConstant_serialize t cur w = Done w' ->
  JfrThreadConstant_serialize t t w = Done w'.
Proof.
  unfold JfrThreadConstant_serialize.
  rewrite Nat.eqb_refl, andb_false_r.
  destruct (ASSERT && negb (t =? cur)); [discriminate | trivial].
Qed.

(** X14.  No serializer returns with a reserved slot in what it added: the
    slot the enumeration reserves for its count is patched or rolled back
    by the time [serialize] returns, and no other serializer reserves one. *)
Theorem no_reserved_slot_on_return k reg w c s' :
  serialize k reg (w, c) = Done s' ->
  Forall (fun x => kind_of x <> KReserved) (emitted w (fst s')).
Proof.
  intros H.
  assert (Hcases : k = CodeBlobTypeConstant \/ k <> CodeBlobTypeConstant)
    by (destruct k; first [left; reflexivity | right; discriminate]).
  destruct Hcases as [->|Hk].
  { destruct (CodeBlobTypeConstant_written reg (w, c)) as (s1 & Hrun & _ & Hw).
    rewrite Hrun in H. injection H as <-. simpl in Hw.
    rewrite (emitted_app _ _ _ Hw). repeat constructor; discriminate. }
  destruct (capability k) as [[|]|] eqn:Hcap.
  3: destruct (cardinality k) as [n|] eqn:Hn.
  1, 3: assert (Hcap' : capability k <> Some false) by congruence;
    assert (Hn' : exists n, cardinality k = Some n)
      by (destruct k; try discriminate; eexists; reflexivity);
    destruct Hn' as (n' & Hn');
    pose proof (table_Done_written k reg (w, c) n' s' Hn' Hk Hcap' H) as Hw;
    simpl in Hw; rewrite Hw;
    constructor; [discriminate|];
    apply Forall_ordinal_entries; discriminate.
  - rewrite (gated_off_run k reg (w, c) Hcap) in H. injection H as <-.
    simpl. rewrite emitted_nothing. constructor.
  - destruct k; try discriminate; try congruence.
    + change (JfrThreadConstantSet_serialize reg (w, c) = Done s') in H.
      assert (Hnames : names_pass_assert (all_threads reg)).
      { apply (thread_set_returns_iff_named_aux reg (w, c)). eexists; exact H. }
      destruct (thread_set_wraps reg w c Hnames) as (w' & c' & Hrun & Hw).
      rewrite Hrun in H. injection H as <-. simpl.
      rewrite (emitted_app _ _ _ Hw).
      destruct (_ =? 0)%Z; constructor;
        [discriminate | apply thread_records_not_reserved].
    + simpl in H. injection H as <-. unfold emitted, cursor. simpl.
      rewrite drop_app_length. repeat constructor; discriminate.
    + simpl in H. injection H as <-. unfold emitted, cursor. simpl.
      rewrite drop_app_length. repeat constructor; discriminate.
    + change (on_writer (JfrThreadConstant_serialize _thread (current c))
                (w, c) = Done s') in H.
      apply on_writer_Done_inv in H as [H _]. simpl in H.
      apply self_Done_own in H.
      destruct (JfrThreadConstant_written _thread w) as (w' & Hrun & Hw).
      rewrite Hrun in H. injection H as H.
      rewrite <- H, (emitted_app _ _ _ Hw).
      constructor; [discriminate|].
      apply Forall_app. split; [apply thread_record_not_reserved|].
      destruct (is_Java_thread _thread); repeat constructor; discriminate.
Qed.

(** ** Counts and entries, for every run that returns *)

(** C1.  Take a serializer of this file that writes its pool itself (the
    two that pass the writer to [JfrThreadGroup] and [JfrThreadState] do
    not), a tally of threads that fits the [u4] counter of the closure, and
    a code cache of one type, as the single entry of
    [CodeBlobTypeConstant] under its count [nof_entries] takes it.
    Whenever the serializer returns, what it added is nothing or a pool
    whose count, patched or written up front, is the number of entries
    behind it; and it returns when no assertion and no
    [ShouldNotReachHere] stops it. *)
Theorem counts_match_entries k reg s :
  k <> JfrThreadGroupConstant ->
  k <> ThreadStateConstant ->
  (k = CodeBlobTypeConstant -> CodeBlobType_NumTypes = 1) ->
  (k = JfrThreadConstantSet -> fits_u4 (all_threads reg)) ->
  (forall s',
     serialize k reg s = Done s' ->
     count_matches_entries (emitted (fst s) (fst s'))) /\
  (runs k reg s -> exists s', serialize k reg s = Done s').
Proof.
  intros Hg Hs Hblob Hfit.
  assert (Hcases : k = CodeBlobTypeConstant \/ k <> CodeBlobTypeConstant)
    by (destruct k; first [left; reflexivity | right; discriminate]).
  destruct Hcases as [Hk|Hk].
  { subst k.
    destruct (CodeBlobTypeConstant_written reg s) as (s1 & Hrun & _ & Hw).
    split; [|intros _; exists s1; exact Hrun].
    intros s' H. rewrite Hrun in H. injection H as <-.
    rewrite (emitted_app _ _ _ Hw), (Hblob eq_refl). reflexivity. }
  destruct (capability k) as [[|]|] eqn:Hcap.
  3: destruct (cardinality k) as [n|] eqn:Hn.
  1, 3: assert (Hcap' : capability k <> Some false) by congruence;
    assert (Hn' : exists n, cardinality k = Some n)
      by (destruct k; try discriminate; eexists; reflexivity);
    destruct Hn' as (n' & Hn'); split;
    [ intros s' H;
      rewrite (table_Done_written k reg s n' s' Hn' Hk Hcap' H);
      unfold count_matches_entries;
      now rewrite keys_ordinal_entries, length_map, length_seq
    | intros Hruns;
      destruct (table_loop (table_lookup k) n' (fst s)) as (w' & Hrun & _);
      [ now apply (table_lookup_runs k reg s)
      | exists (w', snd s); rewrite (table_unfold k reg s n' Hn' Hk Hcap');
        apply on_writer_Done; exact Hrun ] ].
  - rewrite (gated_off_run k reg s Hcap).
    split; [|intros _; exists s; reflexivity].
    intros s' [= <-]. now rewrite emitted_nothing.
  - destruct k; try discriminate; try congruence.
    + destruct s as [w c]. specialize (Hfit eq_refl).
      change (serialize JfrThreadConstantSet reg (w, c))
        with (JfrThreadConstantSet_serialize reg (w, c)).
      split.
      * intros s' H.
        assert (Hnames : names_pass_assert (all_threads reg)).
        { apply (thread_set_returns_iff_named_aux reg (w, c)).
          eexists; exact H. }
        destruct (thread_set_Done reg w c Hnames Hfit)
          as (w' & c' & Hrun & Hw & _).
        rewrite Hrun in H. injection H as <-. simpl.
        rewrite (emitted_app _ _ _ Hw). apply count_matches_thread_pool.
      * intros [Hnames _].
        destruct (thread_set_run reg w c Hnames) as (tc & c' & Hrun & _).
        eexists. exact Hrun.
    + destruct s as [w c]. split.
      * intros s' H.
        change (on_writer (JfrThreadConstant_serialize _thread (current c))
                  (w, c) = Done s') in H.
        apply on_writer_Done_inv in H as [H _]. simpl in H.
        apply self_Done_own in H.
        destruct (JfrThreadConstant_written _thread w) as (w' & Hrun & Hw).
        rewrite Hrun in H. injection H as H. simpl fst.
        rewrite <- H, (emitted_app _ _ _ Hw). unfold count_matches_entries.
        rewrite keys_app, keys_thread_record.
        now destruct (is_Java_thread _thread).
      * intros Hruns. simpl in Hruns. subst _thread.
        destruct (self_run reg w c) as (w' & Hrun & _).
        eexists. exact Hrun.
Qed.

End Further.

(** * Runs on the sample VMs, continued *)

(** X3 on two registries of the sample debug VM: one whose threads have
    names, one with a thread that has none. *)
Lemma thread_set_returns_iff_named_witness :
  (exists s',
     JfrThreadConstantSet_serialize (vm := debug_vm) three_threads
       (used_writer, caller 12) = Done s') /\
  ~ (exists s',
       JfrThreadConstantSet_serialize (vm := debug_vm) nameless_thread
         (used_writer, caller 12) = Done s').
Proof.
  split.
  - apply (proj2 (thread_set_returns_iff_named (vm := debug_vm) three_threads
                    (used_writer, caller 12))).
    exact three_threads_named.
  - intros Hrun.
    pose proof (proj1 (thread_set_returns_iff_named (vm := debug_vm)
                         nameless_thread (used_writer, caller 12)) Hrun eq_refl)
      as H.
    apply Forall_cons in H as [_ H]. apply Forall_cons in H as [H _].
    apply H. reflexivity.
Defined.

(** Three threads: the count is 3 modulo 2^32, which is 3. *)
Lemma thread_set_count_wraps_witness :
  exists w' c',
    JfrThreadConstantSet_serialize (vm := debug_vm) three_threads
      (used_writer, caller 12) = Done (w', c') /\
    written w' !! 3 = Some (SCount 3%Z).
Proof.
  destruct (thread_set_count_wraps (vm := debug_vm) three_threads used_writer
              (caller 12) three_threads_named)
    as (w' & c' & Hrun & _ & Hpatch).
  exists w', c'. split; [exact Hrun|].
  destruct Hpatch as [Hcount _]; [vm_compute; discriminate|].
  exact Hcount.
Defined.

(** Java threads 10 and 11 come before native thread 5. *)
Lemma thread_set_keys_in_iteration_order_witness :
  exists w' c',
    JfrThreadConstantSet_serialize (vm := debug_vm) three_threads
      (used_writer, caller 12) = Done (w', c') /\
    keys (emitted used_writer w') = [10%Z; 11%Z; 5%Z].
Proof.
  destruct (thread_set_keys_in_iteration_order (vm := debug_vm) three_threads
              used_writer (caller 12) three_threads_named three_threads_fit)
    as (w' & c' & Hrun & Hkeys).
  exists w', c'. split; [exact Hrun | exact Hkeys].
Defined.

(** Three threads give three records. *)
Lemma thread_record_fields_witness :
  exists w' c' records,
    JfrThreadConstantSet_serialize (vm := debug_vm) three_threads
      (used_writer, caller 12) = Done (w', c') /\
    emitted used_writer w' = thread_pool records /\
    length records = 3.
Proof.
  destruct (thread_record_fields (vm := debug_vm) three_threads used_writer
              (caller 12) three_threads_named three_threads_fit)
    as (w' & c' & records & Hrun & Hpool & Hfields).
  exists w', c', records. split; [exact Hrun|]. split; [exact Hpool|].
  symmetry. exact (Forall2_length _ _ _ Hfields).
Defined.

(** Thread 10 has a name, thread 7 behind it has none. *)
Lemma thread_set_stops_at_nameless_witness :
  exists w' c',
    JfrThreadConstantSet_serialize (vm := debug_vm) nameless_thread
      (fresh_writer, caller 12) = Fatal (w', c') /\
    skip_rank_order_check c' = true.
Proof.
  assert (Hpre : Forall (fun u => JfrThreadName_name (HotSpot := debug_vm) u <> None)
                   [10])
    by (repeat constructor; discriminate).
  destruct (thread_set_stops_at_nameless (vm := debug_vm) nameless_thread
              fresh_writer (caller 12) [10] 7 [] eq_refl eq_refl Hpre eq_refl)
    as (w' & c' & Hrun & _ & _ & Hskip).
  exists w', c'. split; [exact Hrun | exact Hskip].
Defined.

(** Thread 12, a Java thread, alone in the registry and calling. *)
Lemma self_pool_extends_enumeration_witness :
  exists w1 w2 c2,
    serialize (vm := debug_vm) (JfrThreadConstant 12) only_thread_12
      (used_writer, caller 12) = Done (w1, caller 12) /\
    serialize (vm := debug_vm) JfrThreadConstantSet only_thread_12
      (used_writer, caller 12) = Done (w2, c2) /\
    emitted used_writer w1 =
    emitted used_writer w2 ++ [SForeign (ThreadGroup_chain 1212%Z)].
Proof.
  apply (self_pool_extends_enumeration (vm := debug_vm) only_thread_12
           used_writer (caller 12)).
  - reflexivity.
  - intros _. repeat constructor; discriminate.
Defined.

(** Thread 6 runs the serializer of thread 5, in a debug and in a product
    build. *)
Lemma self_stops_iff_foreign_thread_witness :
  serialize (vm := debug_vm) (JfrThreadConstant 5) no_threads
    (used_writer, caller 6) = Fatal (used_writer, caller 6) /\
  exists w',
    serialize (vm := lean_vm) (JfrThreadConstant 5) no_threads
      (used_writer, caller 6) = Done (w', caller 6) /\
    keys (emitted used_writer w') = [5%Z].
Proof.
  split.
  - apply (proj1 (self_stops_iff_foreign_thread (vm := debug_vm) 5 no_threads
                    (used_writer, caller 6))).
    split; [reflexivity | discriminate].
  - apply (proj2 (self_stops_iff_foreign_thread (vm := lean_vm) 5 no_threads
                    (used_writer, caller 6))).
    left. reflexivity.
Defined.

(** The reference types of [gap_vm]: seven ordinals, no name for 5. *)
Lemma table_stops_at_unknown_ordinal_witness :
  exists w',
    serialize (vm := gap_vm) ReferenceTypeConstant no_threads
      (fresh_writer, caller 12) = Fatal (w', caller 12) /\
    keys (emitted fresh_writer w') = [0%Z; 1%Z; 2%Z; 3%Z; 4%Z; 5%Z].
Proof.
  destruct (table_stops_at_unknown_ordinal (vm := gap_vm) ReferenceTypeConstant
              no_threads (fresh_writer, caller 12) 7 5)
    as (w' & Hrun & Hw).
  - reflexivity.
  - discriminate.
  - discriminate.
  - lia.
  - intros i Hi. do 5 (destruct i as [|i]; [discriminate|]). lia.
  - reflexivity.
  - exists w'. split; [exact Hrun|]. simpl in Hw. rewrite Hw. reflexivity.
Defined.

(** The eight origins of the sample VM are the ordinals 0 to 7. *)
Lemma flag_origins_return_iff_covered_witness :
  exists s',
    serialize (vm := debug_vm) FlagValueOriginConstant no_threads
      (used_writer, caller 12) = Done s'.
Proof.
  apply (proj2 (flag_origins_return_iff_covered (vm := debug_vm) no_threads
                  (used_writer, caller 12))).
  intros i Hi. simpl in Hi.
  do 8 (destruct i as [|i]; [simpl; tauto|]). lia.
Defined.

(** In [gap_vm] ordinal 5 is no reference type, and the serializer does not
    return. *)
Lemma reference_types_return_iff_covered_witness :
  ~ (exists s',
       serialize (vm := gap_vm) ReferenceTypeConstant no_threads
         (used_writer, caller 12) = Done s').
Proof.
  intros Hrun.
  pose proof (proj1 (reference_types_return_iff_covered (vm := gap_vm)
                       no_threads (used_writer, caller 12)) Hrun 5) as H.
  simpl in H.
  assert (H5 : 5 <= 6) by lia. specialize (H H5).
  repeat (destruct H as [H|H]; [discriminate H|]). exact H.
Defined.

(** The six reference types of the sample VM, all named. *)
Lemma switch_names_never_NULL_witness :
  exists s',
    serialize (vm := debug_vm) ReferenceTypeConstant no_threads
      (used_writer, caller 12) = Done s' /\
    ~ In (SString None) (emitted used_writer (fst s')).
Proof.
  eexists. split; [reflexivity|].
  apply (switch_names_never_NULL (vm := debug_vm) ReferenceTypeConstant
           no_threads (used_writer, caller 12)).
  - right. reflexivity.
  - reflexivity.
Defined.

(** The enumeration of three threads leaves no reserved slot. *)
Lemma no_reserved_slot_on_return_witness :
  exists s',
    serialize (vm := debug_vm) JfrThreadConstantSet three_threads
      (used_writer, caller 12) = Done s' /\
    Forall (fun x => kind_of x <> KReserved) (emitted used_writer (fst s')).
Proof.
  eexists. split; [reflexivity|].
  apply (no_reserved_slot_on_return (vm := debug_vm) JfrThreadConstantSet
           three_threads used_writer (caller 12)).
  reflexivity.
Defined.

(** The thread set and the code blob types of the sample debug VM, whose
    code cache has one type. *)
Lemma counts_match_entries_witness :
  (exists s',
     serialize (vm := debug_vm) JfrThreadConstantSet three_threads
       (used_writer, caller 12) = Done s' /\
     count_matches_entries (emitted used_writer (fst s'))) /\
  (exists s',
     serialize (vm := debug_vm) CodeBlobTypeConstant three_threads
       (used_writer, caller 12) = Done s' /\
     count_matches_entries (emitted used_writer (fst s'))).
Proof.
  split.
  - destruct (counts_match_entries (vm := debug_vm) JfrThreadConstantSet
                three_threads (used_writer, caller 12))
      as [Hcount Hreturns].
    + discriminate.
    + discriminate.
    + discriminate.
    + intros _. exact three_threads_fit.
    + destruct Hreturns as (s' & Hrun).
      { split; [exact three_threads_named | exact three_threads_fit]. }
      exists s'. split; [exact Hrun | exact (Hcount s' Hrun)].
  - destruct (counts_match_entries (vm := debug_vm) CodeBlobTypeConstant
                three_threads (used_writer, caller 12))
      as [Hcount Hreturns].
    + discriminate.
    + discriminate.
    + intros _. reflexivity.
    + discriminate.
    + destruct Hreturns as (s' & Hrun); [exact I|].
      exists s'. split; [exact Hrun | exact (Hcount s' Hrun)].
Defined.
